(** * A2A demo UI: the in-memory agent manager

    A shallow embedding of
      - [demo/ui/utils/agent_card.py]                    ([get_agent_card]),
      - [demo/ui/service/server/in_memory_manager.py]    ([InMemoryFakeAgentManager]),
    and the properties of message dispatch, the pending summary, agent
    registration and the task registry.

    Python objects that are mutated after they have been stored (tasks) live
    in an object store and are handled by reference; everything else is a
    value.  Methods run in a state-and-exception monad over the manager. *)

From stdpp Require Import base option list gmap strings pretty.
From Stdlib Require Import ZArith Ascii.

Local Open Scope string_scope.
Local Open Scope list_scope.
Local Open Scope stdpp_scope.
Local Open Scope Z_scope.

(* ================================================================== *)
(** * Exceptions and the execution monad *)
(* ================================================================== *)

(** The exception classes the two modules raise, catch or let through.
    Only subclasses of [Exception] are represented. *)
Inductive exc_class :=
| Exception_
| KeyError
| TypeError
| AttributeError
| ValueError
| UnboundLocalError
| RequestException
| RequestsTimeout
| HTTPError
| ConnectionError_
| JSONDecodeError            (* json / simplejson: a ValueError *)
| RequestsJSONDecodeError    (* requests >= 2.27: RequestException and ValueError *)
| ValidationError.           (* pydantic: a ValueError *)

Record exn := Exn { exn_class : exc_class; exn_str : string }.

(** [isinstance(e, c)] on the class of [e]. *)
Definition subclass (c base : exc_class) : bool :=
  match base, c with
  | Exception_, _ => true
  | KeyError, KeyError => true
  | TypeError, TypeError => true
  | AttributeError, AttributeError => true
  | UnboundLocalError, UnboundLocalError => true
  | ValueError, (ValueError | JSONDecodeError | RequestsJSONDecodeError | ValidationError) => true
  | RequestException,
    (RequestException | RequestsTimeout | HTTPError | ConnectionError_ | RequestsJSONDecodeError) => true
  | RequestsTimeout, RequestsTimeout => true
  | HTTPError, HTTPError => true
  | ConnectionError_, ConnectionError_ => true
  | JSONDecodeError, JSONDecodeError => true
  | RequestsJSONDecodeError, RequestsJSONDecodeError => true
  | ValidationError, ValidationError => true
  | _, _ => false
  end.

Definition isinstance (e : exn) (base : exc_class) : bool :=
  subclass (exn_class e) base.

(** What a call does: it returns a value or raises. *)
Inductive outcome (A : Type) :=
| Returned (a : A)
| Raised (e : exn).
Arguments Returned {A} a.
Arguments Raised {A} e.

Definition is_returned {A} (o : outcome A) : bool :=
  match o with Returned _ => true | Raised _ => false end.

(** A method over a mutable object of type [S]: mutations made before a
    raise stay (Python does not roll back). *)
Definition Py (S A : Type) : Type := S -> outcome A * S.

Definition ret {S A} (a : A) : Py S A := fun s => (Returned a, s).

Definition raise {S A} (e : exn) : Py S A := fun s => (Raised e, s).

Definition bind {S A B} (c : Py S A) (k : A -> Py S B) : Py S B :=
  fun s =>
    match c s with
    | (Returned a, s') => k a s'
    | (Raised e, s') => (Raised e, s')
    end.

Definition lift {S A} (o : outcome A) : Py S A := fun s => (o, s).

Definition gets {S A} (f : S -> A) : Py S A := fun s => (Returned (f s), s).

Definition modify {S} (f : S -> S) : Py S unit := fun s => (Returned tt, f s).

(** [try: body / except Exception as e: handler e]. *)
Definition try_except {S A} (body : Py S A) (handler : exn -> Py S A) : Py S A :=
  fun s =>
    match body s with
    | (Returned a, s') => (Returned a, s')
    | (Raised e, s') => handler e s'
    end.

Declare Scope py_scope.
Delimit Scope py_scope with py.
Notation "x <- c ;; k" := (bind c (fun x => k))
  (at level 100, c at next level, k at level 200, right associativity) : py_scope.
Notation "c ;; k" := (bind c (fun _ => k))
  (at level 100, k at level 200, right associativity) : py_scope.
Local Open Scope py_scope.

(** A [for] loop whose body may [return]: the body gets the loop-carried
    locals and says whether the loop goes on or the function returns. *)
Inductive flow (Acc R : Type) :=
| Continue (acc : Acc)
| Return (r : R).
Arguments Continue {Acc R} acc.
Arguments Return {Acc R} r.

Fixpoint for_in {S A Acc R} (xs : list A) (acc : Acc)
    (body : A -> Acc -> Py S (flow Acc R)) : Py S (flow Acc R) :=
  match xs with
  | [] => ret (Continue acc)
  | x :: xs' =>
      f <- body x acc ;;
      match f with
      | Continue acc' => for_in xs' acc' body
      | Return r => ret (Return r)
      end
  end.

(** [enumerate(l)]. *)
Definition enumerate {A} (l : list A) : list (nat * A) :=
  zip (seq 0 (length l)) l.

(* ================================================================== *)
(** * The protocol types ([common.types], [service.types]) *)
(* ================================================================== *)

(** Modelled from the spec: [common.types] and [service.types] are not
    among the sources.  The records below carry the fields that the two
    modules read or write, with the shapes section 3 of the specification
    gives them; the task states are those of its status state machine. *)
Inductive TaskState :=
| SUBMITTED
| WORKING
| INPUT_REQUIRED
| COMPLETED
| ERROR.

Inductive Part :=
| TextPart (text : string)
| DataPart (data : list (string * string)).

(** [part.type]. *)
Definition part_type (p : Part) : string :=
  match p with
  | TextPart _ => "text"
  | DataPart _ => "data"
  end.

(** [part.text]: only a [TextPart] has the attribute. *)
Definition part_text (p : Part) : outcome string :=
  match p with
  | TextPart text => Returned text
  | DataPart _ => Raised (Exn AttributeError "'DataPart' object has no attribute 'text'")
  end.

(** [isinstance(part, TextPart)]. *)
Definition is_TextPart (p : Part) : bool :=
  match p with TextPart _ => true | _ => false end.

Record Message := {
  role : string;
  parts : list Part;
  metadata : option (gmap string string)
}.

Record JSONRPCError := {
  error_code : Z;
  error_message : string
}.

Record Artifact := {
  artifact_name : option string;
  artifact_parts : list Part
}.

Record TaskStatus := {
  status_state : TaskState;
  status_message : option Message;
  status_error : option JSONRPCError
}.

Record Task := {
  task_id : string;
  sessionId : option string;
  status : TaskStatus;
  history : option (list Message);
  artifacts : option (list Artifact)
}.

(** A value of a parsed JSON object, as far as a card is read. *)
Inductive jvalue :=
| JNull
| JStr (s : string)
| JOther (repr : string).

(** A parsed JSON document: an object, or anything else. *)
Inductive jdoc :=
| JObject (fields : gmap string jvalue)
| JNotObject (repr : string).

Record AgentCard := {
  card_name : option string;
  card_url : option string;
  card_fields : gmap string jvalue   (* capabilities and the rest, not read here *)
}.

Record Conversation := {
  conversation_id : string;
  is_active : bool;
  messages : list Message
}.

Record Event := {
  event_id : string;
  actor : string;
  content : Message;
  timestamp : Z
}.

(** The JSON-RPC reply of [A2AClient.send_task]. *)
Record SendTaskResponse := {
  response_error : option JSONRPCError;
  response_result : option Task
}.

(** The payload of [send_task] (lines 165-170). *)
Record Payload := {
  payload_id : string;
  payload_sessionId : option string;
  payload_acceptedOutputModes : list string;
  payload_message : Message
}.

(** Truth values of the Python objects that are tested. *)
Definition truthy_str (s : string) : bool :=
  match s with EmptyString => false | _ => true end.

Definition truthy_opt_str (s : option string) : bool :=
  match s with Some s => truthy_str s | None => false end.

Definition truthy_list {A} (l : list A) : bool :=
  match l with [] => false | _ => true end.

Definition truthy_opt_list {A} (l : option (list A)) : bool :=
  match l with Some l => truthy_list l | None => false end.

Definition TaskState_eqb (a b : TaskState) : bool :=
  match a, b with
  | SUBMITTED, SUBMITTED | WORKING, WORKING | INPUT_REQUIRED, INPUT_REQUIRED
  | COMPLETED, COMPLETED | ERROR, ERROR => true
  | _, _ => false
  end.

(** [Message(role="agent", parts=[TextPart(text=text)])]. *)
Definition agent_text (text : string) : Message :=
  {| role := "agent"; parts := [TextPart text]; metadata := None |}.

(* ================================================================== *)
(** * [utils/agent_card.py] *)
(* ================================================================== *)

(** [c.isspace()] on the ASCII range: TAB..CR, FS..US and the blank. *)
Definition py_isspace (c : ascii) : bool :=
  let n := nat_of_ascii c in
  ((9 <=? n) && (n <=? 13) || (28 <=? n) && (n <=? 32))%nat.

(** ["".join(s.split())]: every whitespace character is dropped. *)
Fixpoint remove_whitespace (s : string) : string :=
  match s with
  | EmptyString => EmptyString
  | String c s' =>
      if py_isspace c then remove_whitespace s' else String c (remove_whitespace s')
  end.

(** [s.startswith(p)]. *)
Definition startswith (s p : string) : bool := String.prefix p s.

(** [s.endswith(c)] for a one-character suffix. *)
Fixpoint endswith_char (s : string) (c : ascii) : bool :=
  match s with
  | EmptyString => false
  | String a EmptyString => if decide (a = c) then true else false
  | String _ s' => endswith_char s' c
  end.

(** [s.lstrip(c)], and [s.rstrip(c)] through the reversed string. *)
Fixpoint lstrip_char (s : string) (c : ascii) : string :=
  match s with
  | String a s' => if decide (a = c) then lstrip_char s' c else s
  | EmptyString => EmptyString
  end.

Definition rstrip_char (s : string) (c : ascii) : string :=
  String.rev (lstrip_char (String.rev s) c).

(** What [requests.get] hands back: status line and the outcome of
    [response.json()]. *)
Record Response := {
  status_code : Z;
  reason : string;
  json : outcome jdoc
}.

(** The network, as [get_agent_card] sees it: [requests.get(url, timeout)]. *)
Record Http := {
  requests_get : string -> Z -> outcome Response
}.

(** [response.raise_for_status()]: an [HTTPError] for 4xx and 5xx. *)
Definition raise_for_status (url : string) (r : Response) : outcome unit :=
  if (400 <=? status_code r) && (status_code r <? 600)
  then Raised (Exn HTTPError
         (pretty (status_code r) +:+ " Error: " +:+ reason r +:+ " for url: " +:+ url))
  else Returned tt.

(** Modelled from the spec: the [AgentCard] model ([common.types]) is not
    among the sources.  Building the card from the parsed data by keyword
    expansion needs a mapping (a [TypeError] otherwise); a descriptor has a name and a base URL (section 3), either of
    which the card may leave out (sections 4.1 and 8), and a field that is
    there but is no string fails validation. *)
Definition card_field (fields : gmap string jvalue) (k : string) : outcome (option string) :=
  match fields !! k with
  | None | Some JNull => Returned None
  | Some (JStr s) => Returned (Some s)
  | Some (JOther _) =>
      Raised (Exn ValidationError ("1 validation error for AgentCard: " +:+ k))
  end.

Definition AgentCard_of (data : jdoc) : outcome AgentCard :=
  match data with
  | JNotObject _ =>
      Raised (Exn TypeError "AgentCard() argument after ** must be a mapping")
  | JObject fields =>
      match card_field fields "name" with
      | Raised e => Raised e
      | Returned name =>
          match card_field fields "url" with
          | Raised e => Raised e
          | Returned url =>
              Returned {| card_name := name; card_url := url;
                          card_fields := delete "name" (delete "url" fields) |}
          end
      end
  end.

Definition set_card_url (card : AgentCard) (url : option string) : AgentCard :=
  {| card_name := card_name card; card_url := url; card_fields := card_fields card |}.

(** The [except] clauses of [get_agent_card] (lines 41-56), tried in order.
    [response] is the local of that name: [None] while it is unbound, which
    is the case when [requests.get] itself raised. *)
Definition except_clauses (remote_agent_address : string)
    (response : option Response) (e : exn) : outcome AgentCard :=
  if isinstance e RequestsTimeout then
    Raised (Exn ValueError ("Timeout connecting to agent at " +:+ remote_agent_address))
  else if isinstance e RequestException then
    match response with
    | None =>
        Raised (Exn UnboundLocalError
                  "cannot access local variable 'response' where it is not associated with a value")
    | Some response =>
        let err_msg := pretty (status_code response) +:+ " " +:+ reason response in
        Raised (Exn ValueError
                  ("Cannot connect to agent as " +:+ err_msg +:+
                   " (" +:+ remote_agent_address +:+ ")"))
    end
  else if isinstance e ValueError then
    Raised (Exn ValueError ("Could not parse agent card JSON from " +:+ remote_agent_address))
  else
    Raised (Exn ValueError ("Unexpected error getting agent card from " +:+ remote_agent_address)).

(** Lines 11-24: the cleaned address with a scheme and a trailing slash. *)
Definition base_url_of (remote_agent_address : string) : string :=
  let cleaned_address := remove_whitespace remote_agent_address in
  let remote_agent_address := cleaned_address in
  let base_url :=
    if negb (startswith remote_agent_address "http://"
             || startswith remote_agent_address "https://")
    then "http://" +:+ remote_agent_address
    else remote_agent_address in
  if negb (endswith_char base_url "/"%char) then base_url +:+ "/" else base_url.

Definition agent_card_url_of (remote_agent_address : string) : string :=
  base_url_of remote_agent_address +:+ ".well-known/agent.json".

Definition get_agent_card (http : Http) (remote_agent_address : string)
    : outcome AgentCard :=
  let base_url := base_url_of remote_agent_address in
  let remote_agent_address := remove_whitespace remote_agent_address in
  let agent_card_url := base_url +:+ ".well-known/agent.json" in
  match requests_get http agent_card_url 10 with
  | Raised e => except_clauses remote_agent_address None e
  | Returned response =>
      match raise_for_status agent_card_url response with
      | Raised e => except_clauses remote_agent_address (Some response) e
      | Returned _ =>
          match json response with
          | Raised e => except_clauses remote_agent_address (Some response) e
          | Returned agent_card_data =>
              match AgentCard_of agent_card_data with
              | Raised e => except_clauses remote_agent_address (Some response) e
              | Returned card =>
                  Returned
                    (if negb (truthy_opt_str (card_url card))
                     then set_card_url card (Some (rstrip_char base_url "/"%char))
                     else card)
              end
          end
      end
  end.

(* ================================================================== *)
(** * [service/server/in_memory_manager.py]: the manager's state *)
(* ================================================================== *)

(** The language-model client, as configured from the environment. *)
Record ChatOpenAI := {
  llm_model : string;
  llm_api_key : string;
  llm_base_url : string
}.

(** A reference to a [Task] object: its position in the object store. *)
Definition ref := nat.

(** The attributes of [InMemoryFakeAgentManager], and the [Task] objects
    allocated so far.  [_tasks] holds references: a task is mutated after
    [add_task] has stored it, and [update_task] stores a reference again. *)
Record Manager := {
  _conversations : list Conversation;
  _messages : list Message;
  _tasks : list ref;
  _events : list Event;
  _pending_message_ids : list string;
  _agents : list AgentCard;
  _task_map : gmap string string;
  _llm : option ChatOpenAI;
  objects : list Task
}.

Definition with_conversations (f : list Conversation -> list Conversation) (s : Manager) :=
  {| _conversations := f (_conversations s); _messages := _messages s; _tasks := _tasks s;
     _events := _events s; _pending_message_ids := _pending_message_ids s;
     _agents := _agents s; _task_map := _task_map s; _llm := _llm s; objects := objects s |}.

Definition with_messages (f : list Message -> list Message) (s : Manager) :=
  {| _conversations := _conversations s; _messages := f (_messages s); _tasks := _tasks s;
     _events := _events s; _pending_message_ids := _pending_message_ids s;
     _agents := _agents s; _task_map := _task_map s; _llm := _llm s; objects := objects s |}.

Definition with_tasks (f : list ref -> list ref) (s : Manager) :=
  {| _conversations := _conversations s; _messages := _messages s; _tasks := f (_tasks s);
     _events := _events s; _pending_message_ids := _pending_message_ids s;
     _agents := _agents s; _task_map := _task_map s; _llm := _llm s; objects := objects s |}.

Definition with_events (f : list Event -> list Event) (s : Manager) :=
  {| _conversations := _conversations s; _messages := _messages s; _tasks := _tasks s;
     _events := f (_events s); _pending_message_ids := _pending_message_ids s;
     _agents := _agents s; _task_map := _task_map s; _llm := _llm s; objects := objects s |}.

Definition with_pending (f : list string -> list string) (s : Manager) :=
  {| _conversations := _conversations s; _messages := _messages s; _tasks := _tasks s;
     _events := _events s; _pending_message_ids := f (_pending_message_ids s);
     _agents := _agents s; _task_map := _task_map s; _llm := _llm s; objects := objects s |}.

Definition with_agents (f : list AgentCard -> list AgentCard) (s : Manager) :=
  {| _conversations := _conversations s; _messages := _messages s; _tasks := _tasks s;
     _events := _events s; _pending_message_ids := _pending_message_ids s;
     _agents := f (_agents s); _task_map := _task_map s; _llm := _llm s; objects := objects s |}.

Definition with_task_map (f : gmap string string -> gmap string string) (s : Manager) :=
  {| _conversations := _conversations s; _messages := _messages s; _tasks := _tasks s;
     _events := _events s; _pending_message_ids := _pending_message_ids s;
     _agents := _agents s; _task_map := f (_task_map s); _llm := _llm s; objects := objects s |}.

Definition with_objects (f : list Task -> list Task) (s : Manager) :=
  {| _conversations := _conversations s; _messages := _messages s; _tasks := _tasks s;
     _events := _events s; _pending_message_ids := _pending_message_ids s;
     _agents := _agents s; _task_map := _task_map s; _llm := _llm s; objects := f (objects s) |}.

(** ** The object store *)

Definition set_status_state (st : TaskState) (t : Task) : Task :=
  {| task_id := task_id t; sessionId := sessionId t;
     status := {| status_state := st;
                  status_message := status_message (status t);
                  status_error := status_error (status t) |};
     history := history t; artifacts := artifacts t |}.

Definition set_status_error (e : option JSONRPCError) (t : Task) : Task :=
  {| task_id := task_id t; sessionId := sessionId t;
     status := {| status_state := status_state (status t);
                  status_message := status_message (status t);
                  status_error := e |};
     history := history t; artifacts := artifacts t |}.

Definition set_artifacts (a : option (list Artifact)) (t : Task) : Task :=
  {| task_id := task_id t; sessionId := sessionId t; status := status t;
     history := history t; artifacts := a |}.

Definition set_history (h : option (list Message)) (t : Task) : Task :=
  {| task_id := task_id t; sessionId := sessionId t; status := status t;
     history := h; artifacts := artifacts t |}.

#[global] Instance Task_inhabited : Inhabited Task :=
  populate {| task_id := ""; sessionId := None;
              status := {| status_state := SUBMITTED; status_message := None;
                           status_error := None |};
              history := None; artifacts := None |}.

(** [Task(...)]: a new object, at the next free position of the store. *)
Definition new_object (t : Task) : Py Manager ref :=
  fun s => (Returned (length (objects s)), with_objects (fun o => o ++ [t]) s).

(** Reading through a reference. *)
Definition deref (r : ref) : Py Manager Task :=
  gets (fun s => objects s !!! r).

(** [task.attr = v]: the object behind the reference changes in place. *)
Definition setattr (r : ref) (f : Task -> Task) : Py Manager unit :=
  modify (with_objects (alter f r)).

(** ** The environment of a call *)

(** What a call of [process_message] draws from outside: the identifiers
    [uuid.uuid4()] yields (numbered in the order drawn), the clock, and the
    two collaborators.  [ainvoke] stands for
    [(await self._llm.ainvoke(prompt)).content] and [send_task] for
    [await A2AClient(agent_card=target_agent).send_task(payload)]. *)
Record Env := {
  uuid4 : nat -> string;
  utcnow : nat -> Z;
  ainvoke : ChatOpenAI -> string -> outcome string;
  send_task : AgentCard -> Payload -> outcome SendTaskResponse
}.

(** ** The small methods *)

(** [__init__] (lines 51-81): empty collections, and the model client when
    the three settings are there and its constructor returns. *)
Definition __init__ (getenv : string -> option string)
    (ChatOpenAI_new : string -> string -> string -> outcome ChatOpenAI) : Manager :=
  let openai_api_key := getenv "OPENAI_API_KEY" in
  let openai_api_base := getenv "OPENAI_API_BASE" in
  let llm_model := getenv "LLM_MODEL" in
  let llm :=
    match openai_api_key, openai_api_base, llm_model with
    | Some key, Some base, Some model =>
        if negb (truthy_str key) then None
        else if negb (truthy_str base) then None
        else if negb (truthy_str model) then None
        else match ChatOpenAI_new model key base with
             | Returned c => Some c
             | Raised _ => None
             end
    | _, _, _ => None
    end in
  {| _conversations := []; _messages := []; _tasks := []; _events := [];
     _pending_message_ids := []; _agents := []; _task_map := ∅; _llm := llm;
     objects := [] |}.

(** [create_conversation] (lines 83-87). *)
Definition create_conversation (env : Env) : Py Manager Conversation :=
  let conversation_id := uuid4 env 0 in
  let c := {| conversation_id := conversation_id; is_active := true; messages := [] |} in
  modify (with_conversations (fun l => l ++ [c])) ;;
  ret c.

(** [sanitize_message] (lines 89-93). *)
Definition sanitize_message (env : Env) (message : Message) : Message :=
  let md :=
    match metadata message with
    | None => ∅
    | Some md => md       (* an empty dict is replaced by an empty dict *)
    end in
  {| role := role message; parts := parts message;
     metadata := Some (<["message_id" := uuid4 env 0]> md) |}.

(** [add_task] (lines 285-286). *)
Definition add_task (task : ref) : Py Manager unit :=
  modify (with_tasks (fun l => l ++ [task])).

(** [update_task] (lines 288-292).  The loop runs over the list as it is
    on entry; the only write to it is followed by [return]. *)
Definition update_task (task : ref) : Py Manager unit :=
  tasks <- gets _tasks ;;
  for_in (enumerate tasks) tt
    (fun '(i, t) _ =>
       t_obj <- deref t ;;
       task_obj <- deref task ;;
       if decide (task_id t_obj = task_id task_obj) then
         modify (with_tasks (fun l => <[i := task]> l)) ;;
         ret (Return tt)
       else ret (Continue tt)) ;;
  ret tt.

(** [add_event] (lines 294-295). *)
Definition add_event (event : Event) : Py Manager unit :=
  modify (with_events (fun l => l ++ [event])).

(** [lambda c: c.conversation_id == conversation_id]. *)
Definition has_conversation_id (wanted : option string) (c : Conversation) : Prop :=
  Some (conversation_id c) = wanted.

#[global] Instance has_conversation_id_dec wanted c : Decision (has_conversation_id wanted c).
Proof. unfold has_conversation_id. apply _. Defined.

(** [get_conversation] (lines 297-305): the first conversation with that
    identifier, with its position, which stands for the object. *)
Definition get_conversation (conversation_id : option string) (s : Manager)
    : option (nat * Conversation) :=
  if negb (truthy_opt_str conversation_id) then None
  else list_find (has_conversation_id conversation_id) (_conversations s).

(** ** [get_pending_messages] (lines 307-326) *)

(** An element of the list it returns: a [(message_id, status)] tuple of
    [rval], or a bare identifier of [self._pending_message_ids]. *)
Inductive item :=
| Entry (message_id status : string)
| Id (message_id : string).

(** [lambda x: x.id == task_id], on the object behind the reference. *)
Definition has_task_id (s : Manager) (wanted : string) (r : ref) : Prop :=
  task_id (objects s !!! r) = wanted.

#[global] Instance has_task_id_dec s wanted r : Decision (has_task_id s wanted r).
Proof. unfold has_task_id. apply _. Defined.

(** [next(filter(lambda x: x.id == task_id, self._tasks), None)]. *)
Definition find_task (task_id : string) : Py Manager (option Task) :=
  gets (fun s =>
          match list_find (has_task_id s task_id) (_tasks s) with
          | Some (_, r) => Some (objects s !!! r)
          | None => None
          end).

(** One turn of the loop (lines 310-325), up to and including the
    [return rval] that ends it. *)
Definition pending_body (message_id : string) (rval : list item)
    : Py Manager (flow (list item) (list item)) :=
  task_map <- gets _task_map ;;
  rval <-
    match task_map !! message_id with
    | Some task_id =>
        task <- find_task task_id ;;
        match task with
        | None => ret (rval ++ [Entry message_id ""])
        | Some task =>
            match history task with
            | Some ((m0 :: h') as task_history) =>
                let last_message := default m0 (last h') in      (* task.history[-1] *)
                match parts last_message with
                | part :: _ =>
                    if decide (length task_history = 1%nat) then
                      ret (rval ++ [Entry message_id "Working..."])
                    else
                      text <-
                        (if decide (part_type part = "text")
                         then lift (part_text part)
                         else ret "Working...") ;;
                      ret (rval ++ [Entry message_id text])
                | [] => ret rval
                end
            | Some [] | None => ret rval
            end
        end
    | None => ret (rval ++ [Entry message_id ""])
    end ;;
  ret (Return rval).

Definition get_pending_messages : Py Manager (list item) :=
  pending <- gets _pending_message_ids ;;
  r <- for_in pending [] pending_body ;;
  match r with
  | Return rval => ret rval
  | Continue _ =>
      pending <- gets _pending_message_ids ;;
      ret (Id <$> pending)                     (* return self._pending_message_ids *)
  end.

(** ** [register_agent] (lines 328-332) *)

Definition register_agent (http : Http) (url : string) : Py Manager unit :=
  agent_data <- lift (get_agent_card http url) ;;
  let agent_data :=
    if negb (truthy_opt_str (card_url agent_data))
    then set_card_url agent_data (Some url)
    else agent_data in
  modify (with_agents (fun l => l ++ [agent_data])).

(** ** [process_message] (lines 95-283) *)

(** [message.metadata[key]]. *)
Definition metadata_getitem (message : Message) (key : string) : outcome string :=
  match metadata message with
  | None => Raised (Exn TypeError "'NoneType' object is not subscriptable")
  | Some md =>
      match md !! key with
      | Some v => Returned v
      | None => Raised (Exn KeyError key)
      end
  end.

(** [l.remove(x)] on a list of strings: the first occurrence goes. *)
Fixpoint remove_first (x : string) (l : list string) : option (list string) :=
  match l with
  | [] => None
  | y :: l' =>
      if decide (y = x) then Some l'
      else match remove_first x l' with
           | Some r => Some (y :: r)
           | None => None
           end
  end.

Definition pending_remove (x : string) : Py Manager unit :=
  fun s =>
    match remove_first x (_pending_message_ids s) with
    | Some l => (Returned tt, with_pending (fun _ => l) s)
    | None => (Raised (Exn ValueError "list.remove(x): x not in list"), s)
    end.

(** The argument of the log call of line 135:
    [message.parts[0].text if message.parts else '[no text part]']. *)
Definition logged_text (message : Message) : outcome string :=
  match parts message with
  | part :: _ => part_text part
  | [] => Returned "[no text part]"
  end.

Definition set_role (r : string) (m : Message) : Message :=
  {| role := r; parts := parts m; metadata := metadata m |}.

Definition set_metadata (md : option (gmap string string)) (m : Message) : Message :=
  {| role := role m; parts := parts m; metadata := md |}.

(** Lines 207-220: the first [TextPart], artifacts in order and the parts
    of each in order. *)
Fixpoint first_text_in_parts (ps : list Part) : option Part :=
  match ps with
  | [] => None
  | part :: ps' => if is_TextPart part then Some part else first_text_in_parts ps'
  end.

Fixpoint first_text_part (arts : list Artifact) : option Part :=
  match arts with
  | [] => None
  | artifact :: arts' =>
      match (if truthy_list (artifact_parts artifact)
             then first_text_in_parts (artifact_parts artifact)
             else None) with
      | Some part => Some part
      | None => first_text_part arts'
      end
  end.

Definition internal_error (msg : string) : JSONRPCError :=
  {| error_code := -32603; error_message := msg |}.

(** Lines 181-234: reading the task the agent returned.  The result is the
    local [response]. *)
Definition interpret_result (task : ref) (task_result : Task)
    : Py Manager (option Message) :=
  match TaskState_eqb (status_state (status task_result)) INPUT_REQUIRED,
        status_message (status task_result) with
  | true, Some response =>
      (* lines 185-193 *)
      let response :=
        if negb (String.eqb (role response) "agent")
        then set_role "agent" response else response in
      setattr task (set_status_state INPUT_REQUIRED) ;;
      setattr task (set_artifacts (artifacts task_result)) ;;
      ret (Some response)
  | _, _ =>
      match history task_result with
      | Some (m0 :: h') =>
          (* lines 197-202 *)
          let response := default m0 (last h') in     (* task_result.history[-1] *)
          setattr task (set_status_state COMPLETED) ;;
          setattr task (set_artifacts (artifacts task_result)) ;;
          ret (Some response)
      | Some [] | None =>
          match artifacts task_result with
          | Some ((_ :: _) as arts) =>
              (* lines 204-227 *)
              match first_text_part arts with
              | Some part =>
                  setattr task (set_status_state COMPLETED) ;;
                  setattr task (set_artifacts (artifacts task_result)) ;;
                  ret (Some {| role := "agent"; parts := [part]; metadata := None |})
              | None =>
                  setattr task (set_status_state COMPLETED) ;;
                  setattr task (set_artifacts (artifacts task_result)) ;;
                  ret (Some (agent_text
                    "Agent returned data, but not in a displayable text format."))
              end
          | Some [] | None =>
              (* lines 230-234 *)
              setattr task (set_status_state COMPLETED) ;;
              ret (Some (agent_text
                "Agent processed the request but returned no messages or artifacts."))
          end
      end
  end.

(** Lines 155-252: the route to the first registered agent.  [_agents]
    holds [AgentCard]s, so the [isinstance] test of line 160 passes. *)
Definition route_to_agent (env : Env) (task : ref) (task_id : string)
    (conversation_id : option string) (message : Message) (target_agent : AgentCard)
    : Py Manager (option Message) :=
  try_except
    (let payload :=
       {| payload_id := task_id;
          payload_sessionId := conversation_id;
          payload_acceptedOutputModes := ["text"; "text/plain"];
          payload_message := message |} in
     task_response <- lift (send_task env target_agent payload) ;;
     match response_error task_response with
     | Some error =>
         (* lines 174-179 *)
         let response_text := "Error communicating with agent: " +:+ error_message error in
         setattr task (set_status_state ERROR) ;;
         setattr task (set_status_error (Some error)) ;;
         ret (Some (agent_text response_text))
     | None =>
         match response_result task_response with
         | Some task_result => interpret_result task task_result
         | None =>
             (* lines 235-240 *)
             setattr task (set_status_state COMPLETED) ;;
             ret (Some (agent_text
               "Agent processed the request but did not return a valid result structure."))
         end
     end)
    (fun e =>
       (* lines 242-252 *)
       let response_text :=
         "Failed to communicate with the registered agent: " +:+ exn_str e in
       setattr task (set_status_state ERROR) ;;
       setattr task (set_status_error
         (Some (internal_error ("Internal error sending to agent: " +:+ exn_str e)))) ;;
       ret (Some (agent_text response_text))).

Definition fallback_prompt : string :=
  "You are a helpful assistant managing an agent system. Politely inform the user that no agents are currently registered or available to handle their request.".

(** Lines 133-153: no agent is registered. *)
Definition llm_fallback (env : Env) (task : ref) (message : Message)
    : Py Manager (option Message) :=
  _ <- lift (logged_text message) ;;                      (* line 135 *)
  llm <- gets _llm ;;
  match llm with
  | Some llm =>
      try_except
        (response_text <- lift (ainvoke env llm fallback_prompt) ;;
         setattr task (set_status_state COMPLETED) ;;
         ret (Some (agent_text response_text)))
        (fun e =>
           setattr task (set_status_state ERROR) ;;
           setattr task (set_status_error
             (Some (internal_error ("Internal error during LLM fallback: " +:+ exn_str e)))) ;;
           ret (Some (agent_text
             "Sorry, no agents are registered and I encountered an error trying to generate a specific response.")))
  | None =>
      setattr task (set_status_state COMPLETED) ;;
      ret (Some (agent_text "No agents are currently registered or available."))
  end.

(** [conversation.messages.append(m)], on the conversation at a position. *)
Definition conversation_append (conversation : option (nat * Conversation)) (m : Message)
    : Py Manager unit :=
  match conversation with
  | Some (i, _) =>
      modify (with_conversations
        (alter (fun c => {| conversation_id := conversation_id c;
                            is_active := is_active c;
                            messages := messages c ++ [m] |}) i))
  | None => ret tt
  end.

(** [task.history.append(m)]. *)
Definition history_append (task : ref) (m : Message) : Py Manager unit :=
  t <- deref task ;;
  match history t with
  | Some h => setattr task (set_history (Some (h ++ [m])))
  | None => raise (Exn AttributeError "'NoneType' object has no attribute 'append'")
  end.

(** [Task(id=.., sessionId=.., status=.., history=..)]: artifacts default
    to [None]. *)
Definition Task_new (id : string) (session : option string) (st : TaskStatus)
    (hist : list Message) : Task :=
  {| task_id := id; sessionId := session; status := st; history := Some hist;
     artifacts := None |}.

(** The locals that the later parts of [process_message] read. *)
Record Locals := {
  l_message_id : string;
  l_conversation_id : option string;
  l_conversation : option (nat * Conversation);
  l_task_id : string;
  l_task : ref
}.

(** Lines 96-126: intake and task creation. *)
Definition intake (env : Env) (message : Message) : Py Manager Locals :=
  modify (with_messages (fun l => l ++ [message])) ;;                     (* line 96 *)
  message_id <- lift (metadata_getitem message "message_id") ;;           (* line 97 *)
  modify (with_pending (fun l => l ++ [message_id])) ;;                   (* line 98 *)
  (* lines 99-103; [metadata] is a dict here, line 97 went through *)
  let conversation_id := default ∅ (metadata message) !! "conversation_id" in
  conversation <- gets (get_conversation conversation_id) ;;
  conversation_append conversation message ;;
  add_event {| event_id := uuid4 env 0; actor := "host"; content := message;
               timestamp := utcnow env 0 |} ;;
  let task_id := uuid4 env 1 in
  task <- new_object
    (Task_new task_id conversation_id
       {| status_state := SUBMITTED; status_message := Some message;
          status_error := None |}
       [message]) ;;
  add_task task ;;
  modify (with_task_map (fun m => <[message_id := task_id]> m)) ;;        (* line 126 *)
  ret (Build_Locals message_id conversation_id conversation task_id task).

(** Lines 128-254: the routing decision; the result is the local
    [response], [None] while nothing has been assigned to it. *)
Definition dispatch (env : Env) (message : Message) (l : Locals)
    : Py Manager (option Message) :=
  agents <- gets _agents ;;
  match agents with
  | [] => llm_fallback env (l_task l) message
  | target_agent :: _ =>
      route_to_agent env (l_task l) (l_task_id l) (l_conversation_id l) message target_agent
  end.

(** Lines 256-283: the safety net and the reconciliation. *)
Definition reconcile (env : Env) (message : Message) (l : Locals)
    (response : option Message) : Py Manager unit :=
  response <-
    match response with
    | Some response => ret response
    | None =>
        (* lines 257-266 *)
        setattr (l_task l) (set_status_state ERROR) ;;
        setattr (l_task l) (set_status_error
          (Some (internal_error "Internal error: No response generated."))) ;;
        ret (agent_text "Sorry, I encountered an internal error processing your request.")
    end ;;
  let response :=                                                         (* line 268 *)
    set_metadata
      (Some (<["message_id" := uuid4 env 2]> (default ∅ (metadata message)))) response in
  conversation_append (l_conversation l) response ;;
  add_event {| event_id := uuid4 env 3; actor := "agent"; content := response;
               timestamp := utcnow env 1 |} ;;
  message_id <- lift (metadata_getitem message "message_id") ;;           (* line 279 *)
  pending_remove message_id ;;
  history_append (l_task l) response ;;
  update_task (l_task l).

Definition process_message (env : Env) (message : Message) : Py Manager unit :=
  l <- intake env message ;;
  response <- dispatch env message l ;;
  reconcile env message l response.

(* ================================================================== *)
(** * The vocabulary of the statements *)
(* ================================================================== *)

(** The ways discovery fails: the request raises (no route, a timeout), the
    server answers with an error status, the body is not JSON, or the JSON
    is not a card. *)
Inductive discovery_fails (http : Http) (address : string) : Prop :=
| request_raises (e : exn) :
    requests_get http (agent_card_url_of address) 10 = Raised e →
    discovery_fails http address
| error_status (response : Response) :
    requests_get http (agent_card_url_of address) 10 = Returned response →
    400 ≤ status_code response < 600 →
    discovery_fails http address
| body_unparseable (response : Response) (e : exn) :
    requests_get http (agent_card_url_of address) 10 = Returned response →
    json response = Raised e →
    discovery_fails http address
| card_malformed (response : Response) (data : jdoc) (e : exn) :
    requests_get http (agent_card_url_of address) 10 = Returned response →
    json response = Returned data →
    AgentCard_of data = Raised e →
    discovery_fails http address.

(** The task a message is given on intake. *)
Definition submitted_task (env : Env) (message : Message) : Task :=
  Task_new (uuid4 env 1) (default ∅ (metadata message) !! "conversation_id")
    {| status_state := SUBMITTED; status_message := Some message; status_error := None |}
    [message].

(** A message that went through [sanitize_message] carries an identifier. *)
Definition has_message_id (message : Message) (mid : string) : Prop :=
  ∃ md, metadata message = Some md ∧ md !! "message_id" = Some mid.

(** What intake leaves behind: a new task object behind a new reference,
    stored and bound, and the identifier pending. *)
Record intake_post (env : Env) (message : Message) (mid : string)
    (s : Manager) (l : Locals) (s1 : Manager) : Prop := {
  post_task : l_task l = length (objects s);
  post_task_id : l_task_id l = uuid4 env 1;
  post_conversation_id :
    l_conversation_id l = default ∅ (metadata message) !! "conversation_id";
  post_message_id : l_message_id l = mid;
  post_objects : objects s1 = objects s ++ [submitted_task env message];
  post_tasks : _tasks s1 = _tasks s ++ [length (objects s)];
  post_pending : _pending_message_ids s1 = _pending_message_ids s ++ [mid];
  post_task_map : _task_map s1 = <[mid := uuid4 env 1]> (_task_map s);
  post_messages : _messages s1 = _messages s ++ [message];
  post_events : _events s1 = _events s ++
    [{| event_id := uuid4 env 0; actor := "host"; content := message;
        timestamp := utcnow env 0 |}];
  post_agents : _agents s1 = _agents s;
  post_llm : _llm s1 = _llm s
}.

(** The payload sent for a message (lines 165-170). *)
Definition payload_of (env : Env) (message : Message) : Payload :=
  {| payload_id := uuid4 env 1;
     payload_sessionId := default ∅ (metadata message) !! "conversation_id";
     payload_acceptedOutputModes := ["text"; "text/plain"];
     payload_message := message |}.

(** [task.attr = v] on the task of the call. *)
Definition on_task (l : Locals) (f : Task → Task) (s : Manager) : Manager :=
  with_objects (alter f (l_task l)) s.

(** The response the agent route gives for a status message. *)
Definition force_agent_role (m : Message) : Message :=
  if negb (String.eqb (role m) "agent") then set_role "agent" m else m.

(** A change of a task that leaves its identifier and history alone. *)
Definition keeps_history (f : Task → Task) : Prop :=
  ∀ t, history (f t) = history t ∧ task_id (f t) = task_id t.

(** Line 268: the response with the metadata of the triggering message and
    an identifier of its own. *)
Definition stamped (env : Env) (message response : Message) : Message :=
  set_metadata
    (Some (<["message_id" := uuid4 env 2]> (default ∅ (metadata message)))) response.

(** The task of the call once the response is in its history. *)
Definition final_task (env : Env) (message : Message) (f : Task → Task)
    (response : Message) : Task :=
  set_history (Some [message; stamped env message response])
    (f (submitted_task env message)).

(** The state a call ends in, given what the routing decision did. *)
Record process_post (env : Env) (message : Message) (mid : string) (f : Task → Task)
    (response : Message) (s s' : Manager) : Prop := {
  done_objects : objects s' = objects s ++ [final_task env message f response];
  done_task : objects s' !!! length (objects s) = final_task env message f response;
  done_stored : length (objects s) ∈ _tasks s';
  done_bound : _task_map s' !! mid = Some (uuid4 env 1);
  done_pending :
    remove_first mid (_pending_message_ids s ++ [mid]) = Some (_pending_message_ids s');
  done_events : _events s' = _events s ++
    [{| event_id := uuid4 env 0; actor := "host"; content := message;
        timestamp := utcnow env 0 |};
     {| event_id := uuid4 env 3; actor := "agent";
        content := stamped env message response; timestamp := utcnow env 1 |}];
  done_agents : _agents s' = _agents s
}.

(** [needle in hay], on strings. *)
Definition contains (needle hay : string) : Prop :=
  ∃ pre post, hay = pre +:+ needle +:+ post.

(* ================================================================== *)
(** * Worked inputs *)
(* ================================================================== *)

(** A manager as [__init__] leaves it when no model is configured. *)
Definition fresh_manager : Manager :=
  __init__ (fun _ => None)
    (fun model key base =>
       Returned {| llm_model := model; llm_api_key := key; llm_base_url := base |}).

Definition echo_card : AgentCard :=
  {| card_name := Some "echo"; card_url := Some "http://example.com"; card_fields := ∅ |}.

(** The same manager with one agent registered. *)
Definition manager_with_echo : Manager :=
  with_agents (fun _ => [echo_card]) fresh_manager.

(** An environment whose agent answers every payload the same way. *)
Definition env_with (reply : outcome SendTaskResponse) : Env :=
  {| uuid4 := fun n => match n with
                       | 0%nat => "uuid-0" | 1%nat => "uuid-1" | 2%nat => "uuid-2"
                       | _ => "uuid-3"
                       end;
     utcnow := fun n => 1700000000 + Z.of_nat n;
     ainvoke := fun _ _ => Returned "No agents are registered.";
     send_task := fun _ _ => reply |}.

Definition hello : Message :=
  {| role := "user"; parts := [TextPart "hello"];
     metadata := Some {[ "message_id" := "m1" ]} |}.

(** A message whose only part is a data part. *)
Definition chart : Message :=
  {| role := "user"; parts := [DataPart [("kind", "chart")]];
     metadata := Some {[ "message_id" := "m1" ]} |}.

Definition ask : Message :=
  {| role := "user"; parts := [TextPart "Which city?"]; metadata := None |}.

Definition answer : Message :=
  {| role := "agent"; parts := [TextPart "Paris"]; metadata := None |}.

Definition report : Artifact :=
  {| artifact_name := Some "report"; artifact_parts := [TextPart "sunny"] |}.

(** Results an agent may send back. *)
Definition result_input_required : Task :=
  {| task_id := "t"; sessionId := None;
     status := {| status_state := INPUT_REQUIRED; status_message := Some ask;
                  status_error := None |};
     history := Some [hello; answer]; artifacts := Some [report] |}.

Definition result_completed : Task :=
  {| task_id := "t"; sessionId := None;
     status := {| status_state := COMPLETED; status_message := None;
                  status_error := None |};
     history := Some [hello; answer]; artifacts := Some [report] |}.

Definition boom : JSONRPCError := {| error_code := -32000; error_message := "boom" |}.

(** Replies of the agent. *)
Definition reply_completed : SendTaskResponse :=
  {| response_error := None; response_result := Some result_completed |}.

Definition reply_input_required : SendTaskResponse :=
  {| response_error := None; response_result := Some result_input_required |}.

(** A reply that breaks JSON-RPC: an error next to a result. *)
Definition reply_error_and_result : SendTaskResponse :=
  {| response_error := Some boom; response_result := Some result_input_required |}.

(** The manager after [hello] went to the echo agent, which answered with a
    completed task. *)
Definition manager_after_hello : Manager :=
  (process_message (env_with (Returned reply_completed)) hello manager_with_echo).2.

(** A message without parts. *)
Definition silent : Message :=
  {| role := "user"; parts := []; metadata := Some {[ "message_id" := "m2" ]} |}.

(** The manager while that message is with the agent: intake is done, the
    answer is awaited. *)
Definition manager_awaiting : Manager :=
  (intake (env_with (Returned reply_completed)) silent manager_with_echo).2.

(** The network: [example.com] serves a card with a name only; nothing
    else can be reached. *)
Definition example_http : Http :=
  {| requests_get := fun url _ =>
       if decide (url = "http://example.com/.well-known/agent.json")
       then Returned {| status_code := 200; reason := "OK";
                        json := Returned (JObject {[ "name" := JStr "echo" ]}) |}
       else Raised (Exn ConnectionError_ "Max retries exceeded") |}.

(** A manager whose model client is configured from the environment. *)
Definition manager_with_model : Manager :=
  __init__ (fun name => Some ("value of " +:+ name))
    (fun model key base =>
       Returned {| llm_model := model; llm_api_key := key; llm_base_url := base |}).

(** An environment whose model call has the given outcome. *)
Definition env_model (completion : outcome string) : Env :=
  {| uuid4 := uuid4 (env_with (Returned reply_completed));
     utcnow := utcnow (env_with (Returned reply_completed));
     ainvoke := fun _ _ => completion;
     send_task := fun _ _ => Returned reply_completed |}.

(** A result with artifacts only: a chart, then a caption. *)
Definition result_artifacts : Task :=
  {| task_id := "t"; sessionId := None;
     status := {| status_state := COMPLETED; status_message := None;
                  status_error := None |};
     history := None;
     artifacts := Some [ {| artifact_name := Some "chart";
                            artifact_parts := [DataPart [("kind", "chart")]] |};
                         {| artifact_name := None; artifact_parts := [] |};
                         {| artifact_name := Some "caption";
                            artifact_parts := [DataPart []; TextPart "Rain by month";
                                               TextPart "2024"] |} ] |}.

Definition reply_artifacts : SendTaskResponse :=
  {| response_error := None; response_result := Some result_artifacts |}.

(** The first text part of a list of artifacts, read off the parts of all
    of them in order. *)
Definition first_text_of (arts : list Artifact) : option Part :=
  snd <$> list_find (fun part => is_TextPart part = true) (arts ≫= artifact_parts).

(** Two identifiers pending, the first one bound to a task that awaits its
    answer. *)
Definition manager_two_pending : Manager :=
  with_pending (fun l => l ++ ["m9"]) manager_awaiting.

(** A task object that was created but never stored. *)
Definition manager_unstored : Manager :=
  with_objects (fun o => o ++ [submitted_task (env_with (Returned reply_completed)) hello])
    fresh_manager.

(* ================================================================== *)
(** * The states of a call, written out *)
(* ================================================================== *)

(** [conversation.messages.append(m)] on a conversation. *)
Definition add_message (m : Message) (c : Conversation) : Conversation :=
  {| conversation_id := conversation_id c; is_active := is_active c;
     messages := messages c ++ [m] |}.

(** The manager once [m] is appended to the conversation resolved, if one
    was resolved. *)
Definition appended_to (conversation : option (nat * Conversation)) (m : Message)
    (s : Manager) : Manager :=
  match conversation with
  | Some (i, _) => with_conversations (alter (add_message m) i) s
  | None => s
  end.

(** The two events of a call. *)
Definition host_event (env : Env) (message : Message) : Event :=
  {| event_id := uuid4 env 0; actor := "host"; content := message;
     timestamp := utcnow env 0 |}.

Definition agent_event (env : Env) (response : Message) : Event :=
  {| event_id := uuid4 env 3; actor := "agent"; content := response;
     timestamp := utcnow env 1 |}.

(** The conversation identifier a message names, if any (lines 99-103). *)
Definition named_conversation (message : Message) : option string :=
  default ∅ (metadata message) !! "conversation_id".

(** The locals and the manager at the end of intake (line 126), which is
    where the call stands while it awaits its collaborator. *)
Definition intake_locals (env : Env) (message : Message) (mid : string) (s : Manager)
    : Locals :=
  {| l_message_id := mid;
     l_conversation_id := named_conversation message;
     l_conversation := get_conversation (named_conversation message) s;
     l_task_id := uuid4 env 1;
     l_task := length (objects s) |}.

Definition intake_state (env : Env) (message : Message) (mid : string) (s : Manager)
    : Manager :=
  with_task_map (fun m => <[mid := uuid4 env 1]> m)
    (with_tasks (fun l => l ++ [length (objects s)])
       (with_objects (fun o => o ++ [submitted_task env message])
          (with_events (fun l => l ++ [host_event env message])
             (appended_to (get_conversation (named_conversation message) s) message
                (with_pending (fun l => l ++ [mid])
                   (with_messages (fun l => l ++ [message]) s)))))).

(** The manager on which the closing [update_task] of line 283 runs. *)
Definition reconciled_state (env : Env) (message : Message) (l : Locals)
    (response : Message) (h : list Message) (pending' : list string) (s2 : Manager)
    : Manager :=
  with_objects
    (alter (set_history (Some (h ++ [stamped env message response]))) (l_task l))
    (with_pending (fun _ => pending')
       (with_events (fun evs => evs ++ [agent_event env (stamped env message response)])
          (appended_to (l_conversation l) (stamped env message response) s2))).

(** Every stored reference is allocated. *)
Definition refs_allocated (s : Manager) : Prop :=
  ∀ r, r ∈ _tasks s → (r < length (objects s))%nat.

(** No stored task has the identifier. *)
Definition task_id_unused (tid : string) (s : Manager) : Prop :=
  ∀ r, r ∈ _tasks s → task_id (objects s !!! r) ≠ tid.

(** Every character of the string is [c]. *)
Fixpoint all_char (c : ascii) (s : string) : bool :=
  match s with
  | EmptyString => true
  | String a s' => if decide (a = c) then all_char c s' else false
  end.


(* ================================================================== *)
(** * More worked inputs *)
(* ================================================================== *)

(** The manager with the echo agent and one conversation, and a message
    for that conversation. *)
Definition manager_with_conversation : Manager :=
  (create_conversation (env_with (Returned reply_completed)) manager_with_echo).2.

Definition hello_in_conversation : Message :=
  {| role := "user"; parts := [TextPart "hello"];
     metadata := Some (<["conversation_id" := "uuid-0"]> {[ "message_id" := "m1" ]}) |}.

Definition manager_after_conversation : Manager :=
  (process_message (env_with (Returned reply_completed)) hello_in_conversation
     manager_with_conversation).2.

(** Two stored tasks with one identifier, and a third task object with
    that identifier. *)
Definition manager_with_twins : Manager :=
  with_tasks (fun _ => [0%nat; 1%nat])
    (with_objects
       (fun _ => [result_completed; result_input_required; result_artifacts])
       fresh_manager).


(* ================================================================== *)
(** * The task registry: [update_task] *)
(* ================================================================== *)

(** The loop of [update_task], at any offset of the enumeration. *)
Lemma update_loop_run (task : ref) (s : Manager) (l : list ref) (k : nat) :
  for_in (zip (seq k (length l)) l) tt
    (fun '(i, t) _ =>
       t_obj <- deref t ;;
       task_obj <- deref task ;;
       if decide (task_id t_obj = task_id task_obj) then
         modify (with_tasks (fun l => <[i := task]> l)) ;;
         ret (Return tt)
       else ret (Continue tt)) s
  = match list_find (has_task_id s (task_id (objects s !!! task))) l with
    | Some (i, _) =>
        (Returned (Return tt), with_tasks (fun l0 => <[(k + i)%nat := task]> l0) s)
    | None => (Returned (Continue tt), s)
    end.
Proof.
  revert k. induction l as [|t l IH]; intros k; [reflexivity|].
  cbn [length seq zip zip_with for_in list_find].
  unfold bind at 1. unfold bind at 1. unfold deref at 1, gets at 1.
  unfold bind at 1. unfold deref at 1, gets at 1.
  unfold has_task_id at 1.
  destruct (decide (task_id (objects s !!! t) = task_id (objects s !!! task))) as [Heq|Hne].
  - cbn. rewrite Nat.add_0_r. reflexivity.
  - unfold ret at 1. rewrite IH.
    destruct (list_find _ l) as [[i r]|]; cbn; [|reflexivity].
    replace (k + S i)%nat with (S k + i)%nat by lia. reflexivity.
Qed.

(** [update_task] never raises; it writes the reference at the first
    position whose task has the same identifier, if there is one. *)
Lemma update_task_run (task : ref) (s : Manager) :
  update_task task s =
    (Returned tt,
     match list_find (has_task_id s (task_id (objects s !!! task))) (_tasks s) with
     | Some (i, _) => with_tasks (fun l => <[i := task]> l) s
     | None => s
     end).
Proof.
  unfold update_task, enumerate.
  unfold bind at 1. unfold gets at 1. unfold bind at 1.
  rewrite update_loop_run.
  destruct (list_find _ (_tasks s)) as [[i r]|]; reflexivity.
Qed.

Lemma update_task_returns (task : ref) (s : Manager) :
  (update_task task s).1 = Returned tt.
Proof. rewrite update_task_run. reflexivity. Qed.

(** What [update_task] leaves alone. *)
Lemma update_task_frame (task : ref) (s : Manager) :
  let s' := (update_task task s).2 in
  objects s' = objects s ∧ _pending_message_ids s' = _pending_message_ids s ∧
  _events s' = _events s ∧ _agents s' = _agents s ∧ _messages s' = _messages s ∧
  _conversations s' = _conversations s ∧ _task_map s' = _task_map s ∧
  _llm s' = _llm s ∧ length (_tasks s') = length (_tasks s).
Proof.
  rewrite update_task_run. cbn.
  destruct (list_find _ (_tasks s)) as [[i r]|]; cbn; rewrite ?length_insert; done.
Qed.

(** C9. Idempotence and the no-match case of [update_task]: running it
    twice with the same task object gives the very state one run gives,
    neither run raises, and when no stored task has the identifier of the
    argument the state is unchanged (nothing is replaced, nothing appended). *)
Theorem update_task_idempotent_noop (task : ref) (s : Manager) :
  (update_task task ;; update_task task) s = update_task task s
  ∧ (update_task task s).1 = Returned tt
  ∧ ((∀ r, r ∈ _tasks s → task_id (objects s !!! r) ≠ task_id (objects s !!! task)) →
     update_task task s = (Returned tt, s)).
Proof.
  split; [|split].
  - unfold bind. rewrite (update_task_run task s).
    destruct (list_find _ (_tasks s)) as [[i r]|] eqn:Hfind.
    + rewrite update_task_run.
      apply list_find_Some in Hfind as (Hi & HP & Hbefore).
      assert (Hlt : (i < length (_tasks s))%nat) by (eapply lookup_lt_Some; eauto).
      set (s1 := with_tasks (fun l => <[i := task]> l) s).
      assert (Hfind' : list_find (has_task_id s1 (task_id (objects s1 !!! task)))
                         (_tasks s1) = Some (i, task)).
      { apply list_find_Some. subst s1. cbn [_tasks with_tasks]. split_and!.
        - by apply list_lookup_insert_eq.
        - reflexivity.
        - intros j y Hj Hji. rewrite list_lookup_insert_ne in Hj by lia.
          by eapply Hbefore. }
      rewrite Hfind'. subst s1. unfold with_tasks. cbn.
      by rewrite list_insert_insert_eq.
    + rewrite update_task_run, Hfind. reflexivity.
  - apply update_task_returns.
  - intros Hnone. rewrite update_task_run.
    destruct (list_find _ (_tasks s)) as [[i r]|] eqn:Hfind; [|reflexivity].
    apply list_find_Some in Hfind as (Hi & HP & _).
    exfalso. eapply Hnone; [|exact HP]. eapply list_elem_of_lookup_2; eauto.
Qed.

(* ================================================================== *)
(** * The pending summary: [get_pending_messages] *)
(* ================================================================== *)

(** One turn of the loop reads the manager, adds at most one entry, which
    is for the identifier of that turn, and then returns from the function. *)
Lemma pending_body_run (message_id : string) (rval : list item) (s : Manager) :
  ∃ added : list item,
    pending_body message_id rval s = (Returned (Return (rval ++ added)), s)
    ∧ (length added ≤ 1)%nat
    ∧ (∀ e, e ∈ added → ∃ status, e = Entry message_id status).
Proof.
  unfold pending_body, find_task.
  unfold bind at 1. unfold gets at 1.
  destruct (_task_map s !! message_id) as [tid|].
  - unfold bind at 1. unfold bind at 1. unfold gets at 1.
    destruct (list_find (has_task_id s tid) (_tasks s)) as [[i r]|].
    + destruct (history (objects s !!! r)) as [[|m0 h']|].
      * exists []. rewrite app_nil_r. cbn. split_and!; [done|lia|set_solver].
      * destruct (parts (default m0 (last h'))) as [|part ps].
        { exists []. rewrite app_nil_r. cbn. split_and!; [done|lia|set_solver]. }
        destruct (decide (length (m0 :: h') = 1%nat)) as [Hone|Hmore].
        { exists [Entry message_id "Working..."]. cbn.
          split_and!; [done|lia|]. intros e ->%list_elem_of_singleton. eauto. }
        destruct part as [text|data].
        -- exists [Entry message_id text]. cbn.
           split_and!; [done|lia|]. intros e ->%list_elem_of_singleton. eauto.
        -- exists [Entry message_id "Working..."]. cbn.
           split_and!; [done|lia|]. intros e ->%list_elem_of_singleton. eauto.
      * exists []. rewrite app_nil_r. cbn. split_and!; [done|lia|set_solver].
    + exists [Entry message_id ""]. cbn.
      split_and!; [done|lia|]. intros e ->%list_elem_of_singleton. eauto.
  - exists [Entry message_id ""]. cbn.
    split_and!; [done|lia|]. intros e ->%list_elem_of_singleton. eauto.
Qed.

(** The turn reads the task map, the task list and the task objects only. *)
Lemma pending_body_reads (message_id : string) (rval : list item) (s1 s2 : Manager) :
  _task_map s1 = _task_map s2 → _tasks s1 = _tasks s2 → objects s1 = objects s2 →
  (pending_body message_id rval s1).1 = (pending_body message_id rval s2).1.
Proof.
  intros Hm Ht Ho.
  unfold pending_body, find_task, bind, gets, ret, lift, has_task_id.
  rewrite Hm.
  destruct (_task_map s2 !! message_id) as [tid|]; [|reflexivity].
  rewrite Ht.
  assert (Hfind : list_find (has_task_id s1 tid) (_tasks s2)
                  = list_find (has_task_id s2 tid) (_tasks s2)).
  { apply list_find_ext. intros r. unfold has_task_id. by rewrite Ho. }
  unfold has_task_id in Hfind. rewrite Hfind, Ho. clear Hfind.
  destruct (list_find _ (_tasks s2)) as [[i r]|]; cbn; [|reflexivity].
  destruct (history (objects s2 !!! r)) as [[|m0 h']|]; cbn; try reflexivity.
  destruct (parts (default m0 (last h'))) as [|part ps]; cbn; [reflexivity|].
  destruct (decide (S (length h') = 1%nat)); cbn; [reflexivity|].
  destruct part; reflexivity.
Qed.

(** With something pending, the function is the first turn of its loop. *)
Lemma get_pending_messages_first (s : Manager) (message_id : string) (rest : list string) :
  _pending_message_ids s = message_id :: rest →
  ∃ rval, pending_body message_id [] s = (Returned (Return rval), s)
          ∧ get_pending_messages s = (Returned rval, s).
Proof.
  intros Hp. destruct (pending_body_run message_id [] s) as (added & Hrun & _).
  exists added. split; [exact Hrun|].
  unfold get_pending_messages.
  unfold bind at 1. unfold gets at 1. rewrite Hp. cbn [for_in].
  unfold bind. rewrite Hrun. reflexivity.
Qed.

(** C5. With a non-empty pending list the summary is computed from the
    first pending identifier alone: the call returns (the manager
    untouched) a list of at most one element, every element of it is an
    entry for that first identifier, and the list is the one returned when
    nothing but the first identifier is pending. *)
Theorem get_pending_messages_first_only
    (s : Manager) (message_id : string) (rest : list string) :
  _pending_message_ids s = message_id :: rest →
  ∃ rval : list item,
    get_pending_messages s = (Returned rval, s)
    ∧ (length rval ≤ 1)%nat
    ∧ (∀ e, e ∈ rval → ∃ status, e = Entry message_id status)
    ∧ (∀ other status, other ∈ rest → other ≠ message_id → Entry other status ∉ rval)
    ∧ (get_pending_messages (with_pending (fun _ => [message_id]) s)).1 = Returned rval.
Proof.
  intros Hp.
  destruct (pending_body_run message_id [] s) as (added & Hrun & Hlen & Hent).
  destruct (get_pending_messages_first s message_id rest Hp) as (rval & Hrun' & Hget).
  rewrite Hrun in Hrun'. injection Hrun' as <-.
  exists added. split_and!; [exact Hget|exact Hlen|exact Hent| |].
  - intros other status _ Hne Hin. apply Hent in Hin as [st Heq]. congruence.
  - destruct (get_pending_messages_first (with_pending (fun _ => [message_id]) s)
                message_id [] eq_refl) as (rval & Hrun1 & ->).
    cbn. f_equal.
    pose proof (pending_body_reads message_id []
                  (with_pending (fun _ => [message_id]) s) s eq_refl eq_refl eq_refl) as Hsame.
    rewrite Hrun1, Hrun in Hsame. cbn in Hsame. congruence.
Qed.

(** [h[-1]] of a non-empty list, as the loop and the dispatcher read it. *)
Lemma last_default {A} (x : A) (l : list A) : last (x :: l) = Some (default x (last l)).
Proof. rewrite last_cons. destruct (last l); reflexivity. Qed.

(** C10. When the first pending identifier is bound to a stored task whose
    history ends with a message that has no parts, the summary is the empty
    list: that identifier gets no entry, neither [""] nor ["Working..."]. *)
Theorem get_pending_messages_empty_parts
    (s : Manager) (message_id : string) (rest : list string)
    (tid : string) (task : Task) (h : list Message) (m : Message) :
  _pending_message_ids s = message_id :: rest →
  _task_map s !! message_id = Some tid →
  find_task tid s = (Returned (Some task), s) →
  history task = Some h →
  last h = Some m →
  parts m = [] →
  get_pending_messages s = (Returned [], s).
Proof.
  intros Hp Hmap Hfind Hh Hlast Hparts.
  destruct (get_pending_messages_first s message_id rest Hp) as (rval & Hbody & ->).
  f_equal. f_equal.
  revert Hbody. unfold pending_body.
  unfold bind at 1. unfold gets at 1. rewrite Hmap.
  unfold bind at 1. unfold bind at 1. rewrite Hfind. rewrite Hh.
  destruct h as [|m0 h']; [discriminate|].
  rewrite last_default in Hlast. injection Hlast as Hlast. rewrite Hlast, Hparts.
  cbn. intros [= <-]. reflexivity.
Qed.

(* ================================================================== *)
(** * The agent directory: [get_agent_card] and [register_agent] *)
(* ================================================================== *)

(** Every [except] clause ends in a [raise]. *)
Lemma except_clauses_raise (address : string) (response : option Response) (e : exn) :
  ∃ e', except_clauses address response e = Raised e'.
Proof.
  unfold except_clauses.
  destruct (isinstance e RequestsTimeout); [eauto|].
  destruct (isinstance e RequestException); [destruct response; eauto|].
  destruct (isinstance e ValueError); eauto.
Qed.

Lemma raise_for_status_ok (url : string) (r : Response) :
  ¬ (400 ≤ status_code r < 600) → raise_for_status url r = Returned tt.
Proof.
  intros H. unfold raise_for_status.
  destruct (400 <=? status_code r) eqn:H1; destruct (status_code r <? 600) eqn:H2;
    cbn; try reflexivity.
  exfalso. apply H. lia.
Qed.

Lemma raise_for_status_error (url : string) (r : Response) :
  400 ≤ status_code r < 600 → ∃ e, raise_for_status url r = Raised e.
Proof.
  intros [H1 H2]. unfold raise_for_status.
  apply Z.leb_le in H1. apply Z.ltb_lt in H2. rewrite H1, H2. cbn. eauto.
Qed.

(** A failed discovery makes [get_agent_card] raise. *)
Lemma get_agent_card_raises (http : Http) (address : string) :
  discovery_fails http address → ∃ e, get_agent_card http address = Raised e.
Proof.
  intros Hfail. unfold get_agent_card.
  fold (agent_card_url_of address).
  destruct Hfail as [e Hget | response Hget Hst | response e Hget Hjson
                    | response data e Hget Hjson Hcard]; rewrite Hget.
  - apply except_clauses_raise.
  - destruct (raise_for_status_error (agent_card_url_of address) response Hst) as [e ->].
    apply except_clauses_raise.
  - destruct (raise_for_status _ response); [|apply except_clauses_raise].
    rewrite Hjson. apply except_clauses_raise.
  - destruct (raise_for_status _ response); [|apply except_clauses_raise].
    rewrite Hjson, Hcard. apply except_clauses_raise.
Qed.

(** And it raises in no other case. *)
Lemma get_agent_card_raises_inv (http : Http) (address : string) (e : exn) :
  get_agent_card http address = Raised e → discovery_fails http address.
Proof.
  unfold get_agent_card. fold (agent_card_url_of address).
  destruct (requests_get http _ 10) as [response|e0] eqn:Hget;
    [|intros _; eapply request_raises; eauto].
  destruct (decide (400 ≤ status_code response < 600)) as [Hst|Hst];
    [intros _; eapply error_status; eauto|].
  rewrite raise_for_status_ok by exact Hst.
  destruct (json response) as [data|e1] eqn:Hjson;
    [|intros _; eapply body_unparseable; eauto].
  destruct (AgentCard_of data) as [card|e2] eqn:Hcard;
    [discriminate|intros _; eapply card_malformed; eauto].
Qed.

(** C8. When discovery fails, whatever the address, [register_agent] raises
    (the exception [get_agent_card] raised) and the manager, its agent
    directory included, is as it was: nothing is appended. *)
Theorem register_agent_failure_no_mutation (http : Http) (url : string) (s : Manager) :
  discovery_fails http url →
  ∃ e : exn,
    get_agent_card http url = Raised e
    ∧ register_agent http url s = (Raised e, s)
    ∧ _agents (register_agent http url s).2 = _agents s.
Proof.
  intros Hfail. destruct (get_agent_card_raises http url Hfail) as [e He].
  exists e. unfold register_agent, bind, lift. rewrite He. done.
Qed.

Example base_url_example : base_url_of "example.com" = "http://example.com/".
Proof. reflexivity. Qed.

Example base_url_cleaned : base_url_of " https://agents.example.com:8000 " =
                           "https://agents.example.com:8000/".
Proof. reflexivity. Qed.

Example rstrip_example : rstrip_char "http://example.com//" "/"%char = "http://example.com".
Proof. reflexivity. Qed.

(** A card without a [url] gets the normalised address in [get_agent_card]. *)
Lemma get_agent_card_backfills (http : Http) (address : string) (response : Response)
    (fields : gmap string jvalue) (name : option string) :
  requests_get http (agent_card_url_of address) 10 = Returned response →
  ¬ (400 ≤ status_code response < 600) →
  json response = Returned (JObject fields) →
  card_field fields "name" = Returned name →
  fields !! "url" = None →
  get_agent_card http address =
    Returned {| card_name := name;
                card_url := Some (rstrip_char (base_url_of address) "/"%char);
                card_fields := delete "name" (delete "url" fields) |}.
Proof.
  intros Hget Hst Hjson Hname Hurl.
  unfold get_agent_card. fold (agent_card_url_of address).
  rewrite Hget, raise_for_status_ok by exact Hst.
  rewrite Hjson. unfold AgentCard_of. rewrite Hname.
  unfold card_field. rewrite Hurl. reflexivity.
Qed.

(** C7. Registering [example.com] when the fetch of its
    [/.well-known/agent.json] yields a card with a name and no [url]: the
    call returns, one descriptor is appended to the directory, and its url
    is [http://example.com]. *)
Theorem register_agent_backfills_url (http : Http) (s : Manager) (response : Response)
    (fields : gmap string jvalue) (name : string) :
  requests_get http "http://example.com/.well-known/agent.json" 10 = Returned response →
  ¬ (400 ≤ status_code response < 600) →
  json response = Returned (JObject fields) →
  fields !! "name" = Some (JStr name) →
  fields !! "url" = None →
  ∃ card : AgentCard,
    register_agent http "example.com" s
      = (Returned tt, with_agents (fun l => l ++ [card]) s)
    ∧ _agents (register_agent http "example.com" s).2 = _agents s ++ [card]
    ∧ card_name card = Some name
    ∧ card_url card = Some "http://example.com".
Proof.
  intros Hget Hst Hjson Hname Hurl.
  eexists. unfold register_agent, bind, lift.
  rewrite (get_agent_card_backfills http "example.com" response fields (Some name));
    [|exact Hget|exact Hst|exact Hjson| |exact Hurl].
  - cbn. split_and!; reflexivity.
  - unfold card_field. rewrite Hname. reflexivity.
Qed.

(* ================================================================== *)
(** * Dispatch: [process_message] *)
(* ================================================================== *)

(** ** The object store at a fresh reference *)

Lemma lookup_fresh (o : list Task) (t : Task) : (o ++ [t]) !!! length o = t.
Proof. by rewrite list_lookup_total_middle. Qed.

Lemma alter_fresh (f : Task → Task) (o : list Task) (t : Task) :
  alter f (length o) (o ++ [t]) = o ++ [f t].
Proof.
  rewrite <- (Nat.add_0_r (length o)) at 1. by rewrite alter_app_r.
Qed.

(** ** The pending list *)

Lemma remove_first_app_new (x : string) (l : list string) :
  x ∉ l → remove_first x (l ++ [x]) = Some l.
Proof.
  induction l as [|y l IH]; intros Hx; cbn.
  - by rewrite decide_True.
  - apply not_elem_of_cons in Hx as [Hne Hx].
    rewrite decide_False by congruence. by rewrite IH.
Qed.

Lemma remove_first_elem_of (x : string) (l : list string) :
  x ∈ l → ∃ l', remove_first x l = Some l' ∧ length l = S (length l').
Proof.
  induction l as [|y l IH]; intros Hx; [by apply elem_of_nil in Hx|].
  cbn. destruct (decide (y = x)) as [->|Hne]; [eauto|].
  apply elem_of_cons in Hx as [->|Hx]; [done|].
  destruct (IH Hx) as (l' & -> & Hlen). eexists. split; [done|]. cbn. lia.
Qed.

(** ** Intake *)

Lemma sanitize_message_has_id (env : Env) (message : Message) :
  has_message_id (sanitize_message env message) (uuid4 env 0).
Proof.
  unfold has_message_id, sanitize_message. eexists. split; [reflexivity|].
  by rewrite lookup_insert_eq.
Qed.

Lemma metadata_getitem_id (message : Message) (mid : string) :
  has_message_id message mid → metadata_getitem message "message_id" = Returned mid.
Proof. intros (md & Hmd & Hmid). unfold metadata_getitem. by rewrite Hmd, Hmid. Qed.

Lemma intake_run (env : Env) (message : Message) (mid : string) (s : Manager) :
  has_message_id message mid →
  ∃ l s1, intake env message s = (Returned l, s1) ∧ intake_post env message mid s l s1.
Proof.
  intros Hid. unfold intake.
  unfold bind at 1. unfold modify at 1.
  unfold bind at 1. unfold lift at 1. rewrite (metadata_getitem_id _ _ Hid).
  unfold bind at 1. unfold modify at 1.
  unfold bind at 1. unfold gets at 1.
  unfold conversation_append, add_event, new_object, add_task.
  destruct (get_conversation _ _) as [[i c]|];
    (eexists _, _; split; [reflexivity|]; split; reflexivity).
Qed.

(** ** The routing decision *)

Lemma on_task_compose (l : Locals) (f g : Task → Task) (s : Manager) :
  on_task l g (on_task l f s) = on_task l (g ∘ f) s.
Proof.
  unfold on_task, with_objects. cbn. f_equal. apply list_alter_alter_eq.
Qed.

Lemma force_agent_role_spec (m : Message) :
  role (force_agent_role m) = "agent"
  ∧ parts (force_agent_role m) = parts m
  ∧ metadata (force_agent_role m) = metadata m.
Proof.
  unfold force_agent_role.
  destruct (String.eqb (role m) "agent") eqn:Heq; cbn; [|done].
  apply String.eqb_eq in Heq. done.
Qed.

Lemma keeps_history_compose (f g : Task → Task) :
  keeps_history f → keeps_history g → keeps_history (g ∘ f).
Proof.
  intros Hf Hg t. cbn. destruct (Hf t) as [? ?], (Hg (f t)) as [? ?]. split; congruence.
Qed.

Lemma keeps_history_state (st : TaskState) : keeps_history (set_status_state st).
Proof. intros t. done. Qed.

Lemma keeps_history_error (e : option JSONRPCError) : keeps_history (set_status_error e).
Proof. intros t. done. Qed.

Lemma keeps_history_artifacts (a : option (list Artifact)) : keeps_history (set_artifacts a).
Proof. intros t. done. Qed.

Create HintDb history.
#[local] Hint Resolve keeps_history_compose keeps_history_state keeps_history_error
  keeps_history_artifacts : history.

(** [interpret_result] always comes back with a response, having written
    to the task of the call only. *)
Lemma interpret_result_returns (task : ref) (task_result : Task) (s : Manager) :
  ∃ (response : Message) (f : Task → Task),
    interpret_result task task_result s
      = (Returned (Some response), with_objects (alter f task) s)
    ∧ keeps_history f.
Proof.
  unfold interpret_result.
  destruct (TaskState_eqb _ INPUT_REQUIRED) eqn:Hst;
    destruct (status_message (status task_result)) as [m|] eqn:Hm.
  1: { eexists _, (set_artifacts _ ∘ set_status_state _).
       split; [|auto with history].
       unfold bind, setattr, modify, ret. cbn.
       unfold with_objects. cbn. by rewrite list_alter_alter_eq. }
  all: destruct (history task_result) as [[|m0 h']|];
    try (eexists _, (set_artifacts _ ∘ set_status_state _);
         split; [|auto with history];
         unfold bind, setattr, modify, ret; cbn;
         unfold with_objects; cbn; by rewrite list_alter_alter_eq).
  all: destruct (artifacts task_result) as [[|a arts]|];
    try (eexists _, (set_status_state _); split; [reflexivity|auto with history]).
  all: destruct (first_text_part (a :: arts));
    eexists _, (set_artifacts _ ∘ set_status_state _);
    (split; [|auto with history]);
    unfold bind, setattr, modify, ret; cbn;
    unfold with_objects; cbn; by rewrite list_alter_alter_eq.
Qed.

Lemma TaskState_eqb_eq (a b : TaskState) : TaskState_eqb a b = true ↔ a = b.
Proof. destruct a, b; cbn; split; congruence. Qed.

(** Lines 185-193: a status message in state INPUT_REQUIRED is the response,
    whatever the history and the artifacts are. *)
Lemma interpret_input_required (task : ref) (task_result : Task) (s : Manager)
    (m : Message) :
  status_state (status task_result) = INPUT_REQUIRED →
  status_message (status task_result) = Some m →
  interpret_result task task_result s =
    (Returned (Some (force_agent_role m)),
     with_objects (alter (set_artifacts (artifacts task_result)) task)
       (with_objects (alter (set_status_state INPUT_REQUIRED) task) s)).
Proof.
  intros Hst Hm. unfold interpret_result. rewrite Hst, Hm. reflexivity.
Qed.

(** Lines 197-202: otherwise a non-empty history gives its last entry. *)
Lemma interpret_history (task : ref) (task_result : Task) (s : Manager)
    (h : list Message) (m : Message) :
  ¬ (status_state (status task_result) = INPUT_REQUIRED
     ∧ is_Some (status_message (status task_result))) →
  history task_result = Some h →
  last h = Some m →
  interpret_result task task_result s =
    (Returned (Some m),
     with_objects (alter (set_artifacts (artifacts task_result)) task)
       (with_objects (alter (set_status_state COMPLETED) task) s)).
Proof.
  intros Hnot Hh Hlast. unfold interpret_result. rewrite Hh.
  destruct h as [|m0 h']; [discriminate|].
  rewrite last_default in Hlast. injection Hlast as ->.
  destruct (TaskState_eqb _ INPUT_REQUIRED) eqn:Hst;
    destruct (status_message (status task_result)) as [m'|] eqn:Hm; try reflexivity.
  exfalso. apply Hnot. split; [by apply TaskState_eqb_eq|eauto].
Qed.

Section dispatch.
  Context (env : Env) (message : Message) (l : Locals) (s1 : Manager).
  Hypothesis Htask_id : l_task_id l = uuid4 env 1.
  Hypothesis Hconversation_id :
    l_conversation_id l = default ∅ (metadata message) !! "conversation_id".

(** No agent, no model client: the fixed answer (lines 149-153), once
    the log call of line 135 has gone through. *)
Lemma dispatch_no_agents_no_llm (logged : string) :
  _agents s1 = [] → _llm s1 = None →
  logged_text message = Returned logged →
  dispatch env message l s1 =
    (Returned (Some (agent_text "No agents are currently registered or available.")),
     on_task l (set_status_state COMPLETED) s1).
Proof.
  intros Hag Hllm Hlog. unfold dispatch, llm_fallback.
  unfold bind at 1. unfold gets at 1. rewrite Hag.
  unfold bind at 1. unfold lift at 1. rewrite Hlog.
  unfold bind at 1. unfold gets at 1. rewrite Hllm.
  reflexivity.
Qed.

(** No agent, and a message whose first part has no [text]: the log call
    of line 135 raises, outside every [try]. *)
Lemma dispatch_no_agents_log_raises (e : exn) :
  _agents s1 = [] → logged_text message = Raised e →
  dispatch env message l s1 = (Raised e, s1).
Proof.
  intros Hag Hlog. unfold dispatch, llm_fallback.
  unfold bind at 1. unfold gets at 1. rewrite Hag.
  unfold bind at 1. unfold lift at 1. rewrite Hlog. reflexivity.
Qed.

Context (target_agent : AgentCard) (rest : list AgentCard).
Hypothesis Hagents : _agents s1 = target_agent :: rest.

(** The call to the agent raises (lines 242-252). *)
Lemma dispatch_agent_raises (e : exn) :
  send_task env target_agent (payload_of env message) = Raised e →
  dispatch env message l s1 =
    (Returned (Some (agent_text
       ("Failed to communicate with the registered agent: " +:+ exn_str e))),
     on_task l (set_status_error
                  (Some (internal_error
                     ("Internal error sending to agent: " +:+ exn_str e))))
       (on_task l (set_status_state ERROR) s1)).
Proof.
  intros Hsend. unfold dispatch, route_to_agent.
  unfold bind at 1. unfold gets at 1. rewrite Hagents.
  unfold try_except. unfold bind at 1. unfold lift at 1.
  rewrite Htask_id, Hconversation_id. fold (payload_of env message).
  rewrite Hsend. reflexivity.
Qed.

(** A protocol error (lines 174-179). *)
Lemma dispatch_protocol_error (task_response : SendTaskResponse) (error : JSONRPCError) :
  send_task env target_agent (payload_of env message) = Returned task_response →
  response_error task_response = Some error →
  dispatch env message l s1 =
    (Returned (Some (agent_text
       ("Error communicating with agent: " +:+ error_message error))),
     on_task l (set_status_error (Some error))
       (on_task l (set_status_state ERROR) s1)).
Proof.
  intros Hsend Herr. unfold dispatch, route_to_agent.
  unfold bind at 1. unfold gets at 1. rewrite Hagents.
  unfold try_except. unfold bind at 1. unfold lift at 1.
  rewrite Htask_id, Hconversation_id. fold (payload_of env message).
  rewrite Hsend, Herr. reflexivity.
Qed.

(** A result without a protocol error is read by [interpret_result]. *)
Lemma dispatch_result (task_response : SendTaskResponse) (task_result : Task) :
  send_task env target_agent (payload_of env message) = Returned task_response →
  response_error task_response = None →
  response_result task_response = Some task_result →
  dispatch env message l s1 = interpret_result (l_task l) task_result s1.
Proof.
  intros Hsend Herr Hres. unfold dispatch, route_to_agent.
  unfold bind at 1. unfold gets at 1. rewrite Hagents.
  unfold try_except. unfold bind at 1. unfold lift at 1.
  rewrite Htask_id, Hconversation_id. fold (payload_of env message).
  rewrite Hsend, Herr, Hres.
  destruct (interpret_result_returns (l_task l) task_result s1) as (r & f & -> & _).
  reflexivity.
Qed.

(** No result and no error (lines 235-240). *)
Lemma dispatch_no_result (task_response : SendTaskResponse) :
  send_task env target_agent (payload_of env message) = Returned task_response →
  response_error task_response = None →
  response_result task_response = None →
  dispatch env message l s1 =
    (Returned (Some (agent_text
       "Agent processed the request but did not return a valid result structure.")),
     on_task l (set_status_state COMPLETED) s1).
Proof.
  intros Hsend Herr Hres. unfold dispatch, route_to_agent.
  unfold bind at 1. unfold gets at 1. rewrite Hagents.
  unfold try_except. unfold bind at 1. unfold lift at 1.
  rewrite Htask_id, Hconversation_id. fold (payload_of env message).
  rewrite Hsend, Herr, Hres. reflexivity.
Qed.

End dispatch.

(** The routing decision as a whole: it raises in one case only, the log
    call of line 135 with no agent registered; in every other case it comes
    back with a response, having written to the task of the call only. *)
Lemma dispatch_total (env : Env) (message : Message) (l : Locals) (s1 : Manager) :
  match dispatch env message l s1 with
  | (Raised e, s2) => _agents s1 = [] ∧ logged_text message = Raised e ∧ s2 = s1
  | (Returned None, _) => False
  | (Returned (Some response), s2) =>
      (_agents s1 = [] → is_returned (logged_text message) = true)
      ∧ ∃ f, s2 = on_task l f s1 ∧ keeps_history f
  end.
Proof.
  unfold dispatch. unfold bind at 1. unfold gets at 1.
  destruct (_agents s1) as [|target_agent rest] eqn:Hag.
  - unfold llm_fallback. unfold bind at 1. unfold lift at 1.
    destruct (logged_text message) as [logged|e]; [|done].
    unfold bind at 1. unfold gets at 1.
    destruct (_llm s1) as [llm|].
    + unfold try_except, bind, lift, setattr, modify, ret.
      destruct (ainvoke env llm fallback_prompt) as [text|e].
      * split; [done|]. eexists. split; [reflexivity|auto with history].
      * split; [done|]. exists (set_status_error
          (Some (internal_error ("Internal error during LLM fallback: " +:+ exn_str e)))
          ∘ set_status_state ERROR).
        split; [|auto with history].
        unfold on_task, with_objects. cbn. by rewrite list_alter_alter_eq.
    + split; [done|]. eexists. split; [reflexivity|auto with history].
  - unfold route_to_agent, try_except. unfold bind at 1. unfold lift at 1.
    destruct (send_task env target_agent _) as [task_response|e].
    + destruct (response_error task_response) as [error|].
      * split; [done|]. exists (set_status_error (Some error) ∘ set_status_state ERROR).
        split; [|auto with history].
        unfold bind, setattr, modify, ret, on_task, with_objects. cbn.
        by rewrite list_alter_alter_eq.
      * destruct (response_result task_response) as [task_result|].
        -- destruct (interpret_result_returns (l_task l) task_result s1)
             as (r & f & -> & Hf).
           split; [done|]. by exists f.
        -- split; [done|]. eexists. split; [reflexivity|auto with history].
    + split; [done|]. exists (set_status_error
        (Some (internal_error ("Internal error sending to agent: " +:+ exn_str e)))
        ∘ set_status_state ERROR).
      split; [|auto with history].
      unfold bind, setattr, modify, ret, on_task, with_objects. cbn.
      by rewrite list_alter_alter_eq.
Qed.

(** ** Reconciliation *)

Lemma update_task_elem (task : ref) (s : Manager) :
  task ∈ _tasks s → task ∈ _tasks (update_task task s).2.
Proof.
  intros Hin. rewrite update_task_run. cbn.
  destruct (list_find _ (_tasks s)) as [[i r]|] eqn:Hfind; [|done].
  cbn. apply list_find_Some in Hfind as (Hi & _ & _).
  apply list_elem_of_lookup in Hin as [j Hj].
  destruct (decide (i = j)) as [->|Hne].
  - apply list_elem_of_lookup. exists j. apply list_lookup_insert_eq.
    by eapply lookup_lt_Some.
  - apply list_elem_of_lookup. exists j. by rewrite list_lookup_insert_ne.
Qed.

(** What reconciliation does with a response, for a task with a history
    and an identifier that is pending. *)
Lemma reconcile_run (env : Env) (message : Message) (mid : string) (l : Locals)
    (response : Message) (h : list Message) (s2 : Manager) :
  has_message_id message mid →
  mid ∈ _pending_message_ids s2 →
  history (objects s2 !!! l_task l) = Some h →
  ∃ s3 pending',
    reconcile env message l (Some response) s2 = (Returned tt, s3)
    ∧ remove_first mid (_pending_message_ids s2) = Some pending'
    ∧ _pending_message_ids s3 = pending'
    ∧ objects s3 = alter (set_history (Some (h ++ [stamped env message response])))
                     (l_task l) (objects s2)
    ∧ _events s3 = _events s2 ++
        [{| event_id := uuid4 env 3; actor := "agent";
            content := stamped env message response; timestamp := utcnow env 1 |}]
    ∧ _agents s3 = _agents s2
    ∧ _task_map s3 = _task_map s2
    ∧ _messages s3 = _messages s2
    ∧ (l_task l ∈ _tasks s2 → l_task l ∈ _tasks s3).
Proof.
  intros Hid Hpend Hh.
  destruct (remove_first_elem_of mid _ Hpend) as (pending' & Hrm & _).
  unfold reconcile.
  unfold bind at 1. unfold ret at 1.
  change (set_metadata _ response) with (stamped env message response).
  set (r := stamped env message response).
  unfold bind at 1.
  assert (Hconv : ∃ sc, conversation_append (l_conversation l) r s2 = (Returned tt, sc)
            ∧ objects sc = objects s2 ∧ _pending_message_ids sc = _pending_message_ids s2
            ∧ _events sc = _events s2 ∧ _agents sc = _agents s2 ∧ _task_map sc = _task_map s2
            ∧ _messages sc = _messages s2 ∧ _tasks sc = _tasks s2).
  { unfold conversation_append. destruct (l_conversation l) as [[i c]|];
      eexists; (split; [reflexivity|done]). }
  destruct Hconv as (sc & -> & Ho & Hp & He & Ha & Hm & Hms & Ht).
  unfold bind at 1. unfold add_event at 1, modify at 1.
  unfold bind at 1. unfold lift at 1. rewrite (metadata_getitem_id _ _ Hid).
  unfold bind at 1. unfold pending_remove at 1. cbn [_pending_message_ids with_events].
  rewrite Hp, Hrm.
  unfold bind at 1. unfold history_append.
  unfold bind at 1. unfold deref at 1, gets at 1. cbn [objects with_pending with_events].
  rewrite Ho, Hh. unfold setattr at 1, modify at 1.
  match goal with |- context [update_task ?t ?s] => set (s' := s) end.
  pose proof (update_task_frame (l_task l) s') as Hframe. cbn zeta in Hframe.
  pose proof (update_task_returns (l_task l) s') as Hret.
  pose proof (update_task_elem (l_task l) s') as Helem.
  destruct (update_task (l_task l) s') as [o s3]. cbn in Hframe, Hret, Helem. subst o.
  destruct Hframe as (Ho3 & Hp3 & He3 & Ha3 & Hms3 & _ & Hm3 & _ & _).
  exists s3, pending'. split_and!; try done.
  - by rewrite Ho3; cbn; rewrite Ho.
  - by rewrite He3; cbn; rewrite He.
  - by rewrite Ha3.
  - by rewrite Hm3.
  - by rewrite Hms3.
  - intros Hin. apply Helem. cbn. by rewrite Ht.
Qed.

(** ** The call as a whole *)

Lemma process_message_run (env : Env) (message : Message) (mid : string) (s : Manager) :
  has_message_id message mid →
  ∃ l s1,
    intake env message s = (Returned l, s1)
    ∧ intake_post env message mid s l s1
    ∧ ∀ response f,
        dispatch env message l s1 = (Returned (Some response), on_task l f s1) →
        keeps_history f →
        ∃ s', process_message env message s = (Returned tt, s')
              ∧ process_post env message mid f response s s'.
Proof.
  intros Hid. destruct (intake_run env message mid s Hid) as (l & s1 & Hin & Hpost).
  exists l, s1. split; [exact Hin|]. split; [exact Hpost|].
  intros response f Hdisp Hf.
  destruct Hpost as [Htask _ _ _ Hobj Htasks Hpend Hmap _ Hev Hag _].
  assert (Hobj2 : objects (on_task l f s1) = objects s ++ [f (submitted_task env message)]).
  { unfold on_task. cbn. by rewrite Htask, Hobj, alter_fresh. }
  destruct (reconcile_run env message mid l response [message] (on_task l f s1))
    as (s3 & pending' & Hrec & Hrm & Hp3 & Ho3 & He3 & Ha3 & Hm3 & _ & Hin3).
  { exact Hid. }
  { cbn. rewrite Hpend. set_solver. }
  { rewrite Hobj2, Htask, lookup_fresh. by destruct (Hf (submitted_task env message)). }
  exists s3. split.
  - unfold process_message. unfold bind at 1. rewrite Hin.
    unfold bind at 1. rewrite Hdisp. exact Hrec.
  - assert (Hfinal : objects s3 = objects s ++ [final_task env message f response]).
    { rewrite Ho3, Hobj2, Htask, alter_fresh. reflexivity. }
    split.
    + exact Hfinal.
    + by rewrite Hfinal, lookup_fresh.
    + rewrite <- Htask. apply Hin3. cbn. rewrite Htasks, Htask. set_solver.
    + rewrite Hm3. cbn. rewrite Hmap. by rewrite lookup_insert_eq.
    + rewrite Hp3. cbn in Hrm. by rewrite Hpend in Hrm.
    + rewrite He3. cbn. rewrite Hev. by rewrite <- app_assoc.
    + rewrite Ha3. cbn. exact Hag.
Qed.

Lemma process_post_last_event (env : Env) (message : Message) (mid : string)
    (f : Task → Task) (response : Message) (s s' : Manager) :
  process_post env message mid f response s s' →
  content <$> last (_events s') = Some (stamped env message response).
Proof.
  intros [_ _ _ _ _ Hev _]. rewrite Hev.
  rewrite last_app. reflexivity.
Qed.

(** C3. When the call to the registered agent raises, whatever the
    exception, [process_message] returns normally: the response is an agent
    message whose text contains "Failed to communicate with the registered
    agent", the task is in state ERROR and carries an error object with code
    -32603. *)
Theorem agent_exception_absorbed (env : Env) (message : Message) (mid : string)
    (s : Manager) (target_agent : AgentCard) (rest : list AgentCard) (e : exn) :
  has_message_id message mid →
  _agents s = target_agent :: rest →
  send_task env target_agent (payload_of env message) = Raised e →
  ∃ (s' : Manager) (response : Message) (text : string) (error : JSONRPCError),
    process_message env message s = (Returned tt, s')
    ∧ role response = "agent"
    ∧ parts response = [TextPart text]
    ∧ contains "Failed to communicate with the registered agent" text
    ∧ history (objects s' !!! length (objects s)) = Some [message; response]
    ∧ content <$> last (_events s') = Some response
    ∧ status_state (status (objects s' !!! length (objects s))) = ERROR
    ∧ status_error (status (objects s' !!! length (objects s))) = Some error
    ∧ error_code error = -32603.
Proof.
  intros Hid Hag Hsend.
  destruct (process_message_run env message mid s Hid) as (l & s1 & _ & Hpost & Hrun).
  pose proof (dispatch_agent_raises env message l s1
                (post_task_id _ _ _ _ _ _ Hpost) (post_conversation_id _ _ _ _ _ _ Hpost)
                target_agent rest) as Hdisp.
  rewrite (post_agents _ _ _ _ _ _ Hpost) in Hdisp.
  specialize (Hdisp Hag e Hsend). rewrite on_task_compose in Hdisp.
  destruct (Hrun _ _ Hdisp) as (s' & Hproc & Hdone); [auto with history|].
  exists s', (stamped env message (agent_text
    ("Failed to communicate with the registered agent: " +:+ exn_str e))).
  exists ("Failed to communicate with the registered agent: " +:+ exn_str e).
  exists (internal_error ("Internal error sending to agent: " +:+ exn_str e)).
  rewrite (done_task _ _ _ _ _ _ _ Hdone).
  split_and!; try reflexivity.
  - exact Hproc.
  - exists "", (": " +:+ exn_str e). reflexivity.
  - eapply process_post_last_event; eauto.
Qed.

(** C1 (amended). When the agent's reply carries no protocol error and its
    result is in state INPUT_REQUIRED with a status message, then, whatever
    the history and the artifacts of the result are: the routing decision
    yields that status message with its role set to "agent" (the message
    itself when it already has that role), the response recorded is that
    message stamped with the metadata of the call, the task is in state
    INPUT_REQUIRED and has the artifacts of the result. *)
Theorem input_required_branch (env : Env) (message : Message) (mid : string)
    (s : Manager) (target_agent : AgentCard) (rest : list AgentCard)
    (task_response : SendTaskResponse) (task_result : Task) (m : Message) :
  has_message_id message mid →
  _agents s = target_agent :: rest →
  send_task env target_agent (payload_of env message) = Returned task_response →
  response_error task_response = None →
  response_result task_response = Some task_result →
  status_state (status task_result) = INPUT_REQUIRED →
  status_message (status task_result) = Some m →
  ∃ (l : Locals) (s1 s2 s' : Manager),
    intake env message s = (Returned l, s1)
    ∧ dispatch env message l s1 = (Returned (Some (force_agent_role m)), s2)
    ∧ role (force_agent_role m) = "agent"
    ∧ parts (force_agent_role m) = parts m
    ∧ metadata (force_agent_role m) = metadata m
    ∧ (role m = "agent" → force_agent_role m = m)
    ∧ process_message env message s = (Returned tt, s')
    ∧ history (objects s' !!! length (objects s))
      = Some [message; stamped env message (force_agent_role m)]
    ∧ content <$> last (_events s') = Some (stamped env message (force_agent_role m))
    ∧ status_state (status (objects s' !!! length (objects s))) = INPUT_REQUIRED
    ∧ artifacts (objects s' !!! length (objects s)) = artifacts task_result.
Proof.
  intros Hid Hag Hsend Herr Hres Hst Hm.
  destruct (process_message_run env message mid s Hid) as (l & s1 & Hin & Hpost & Hrun).
  pose proof (dispatch_result env message l s1
                (post_task_id _ _ _ _ _ _ Hpost) (post_conversation_id _ _ _ _ _ _ Hpost)
                target_agent rest) as Hdisp.
  rewrite (post_agents _ _ _ _ _ _ Hpost) in Hdisp.
  specialize (Hdisp Hag task_response task_result Hsend Herr Hres).
  rewrite (interpret_input_required _ _ _ m Hst Hm) in Hdisp.
  fold (on_task l (set_status_state INPUT_REQUIRED) s1) in Hdisp.
  fold (on_task l (set_artifacts (artifacts task_result))
          (on_task l (set_status_state INPUT_REQUIRED) s1)) in Hdisp.
  rewrite on_task_compose in Hdisp.
  destruct (Hrun _ _ Hdisp) as (s' & Hproc & Hdone); [auto with history|].
  destruct (force_agent_role_spec m) as (Hrole & Hparts & Hmeta).
  eexists l, s1, _, s'.
  rewrite (done_task _ _ _ _ _ _ _ Hdone).
  split_and!; try reflexivity; try done.
  - intros Hr. unfold force_agent_role. rewrite Hr. reflexivity.
  - eapply process_post_last_event; eauto.
Qed.

(** C2. When the agent's reply carries no protocol error, its result does
    not take the INPUT_REQUIRED branch and has a non-empty history: the
    routing decision yields the last entry of that history, the response
    recorded is that entry stamped with the metadata of the call, the task
    is in state COMPLETED and its artifacts are those of the result. *)
Theorem history_branch (env : Env) (message : Message) (mid : string)
    (s : Manager) (target_agent : AgentCard) (rest : list AgentCard)
    (task_response : SendTaskResponse) (task_result : Task) (h : list Message) :
  has_message_id message mid →
  _agents s = target_agent :: rest →
  send_task env target_agent (payload_of env message) = Returned task_response →
  response_error task_response = None →
  response_result task_response = Some task_result →
  ¬ (status_state (status task_result) = INPUT_REQUIRED
     ∧ is_Some (status_message (status task_result))) →
  history task_result = Some h →
  h ≠ [] →
  ∃ (m : Message) (l : Locals) (s1 s2 s' : Manager),
    last h = Some m
    ∧ intake env message s = (Returned l, s1)
    ∧ dispatch env message l s1 = (Returned (Some m), s2)
    ∧ process_message env message s = (Returned tt, s')
    ∧ history (objects s' !!! length (objects s)) = Some [message; stamped env message m]
    ∧ content <$> last (_events s') = Some (stamped env message m)
    ∧ role (stamped env message m) = role m
    ∧ parts (stamped env message m) = parts m
    ∧ status_state (status (objects s' !!! length (objects s))) = COMPLETED
    ∧ artifacts (objects s' !!! length (objects s)) = artifacts task_result.
Proof.
  intros Hid Hag Hsend Herr Hres Hnot Hh Hne.
  destruct (last h) as [m|] eqn:Hlast; [|by apply last_None in Hlast].
  destruct (process_message_run env message mid s Hid) as (l & s1 & Hin & Hpost & Hrun).
  pose proof (dispatch_result env message l s1
                (post_task_id _ _ _ _ _ _ Hpost) (post_conversation_id _ _ _ _ _ _ Hpost)
                target_agent rest) as Hdisp.
  rewrite (post_agents _ _ _ _ _ _ Hpost) in Hdisp.
  specialize (Hdisp Hag task_response task_result Hsend Herr Hres).
  rewrite (interpret_history _ _ _ h m Hnot Hh Hlast) in Hdisp.
  fold (on_task l (set_status_state COMPLETED) s1) in Hdisp.
  fold (on_task l (set_artifacts (artifacts task_result))
          (on_task l (set_status_state COMPLETED) s1)) in Hdisp.
  rewrite on_task_compose in Hdisp.
  destruct (Hrun _ _ Hdisp) as (s' & Hproc & Hdone); [auto with history|].
  eexists m, l, s1, _, s'.
  rewrite (done_task _ _ _ _ _ _ _ Hdone).
  split_and!; try reflexivity; try done.
  eapply process_post_last_event; eauto.
Qed.

(** When the routing decision raises, so does the call, where it stands. *)
Lemma process_message_dispatch_raises (env : Env) (message : Message) (s : Manager)
    (l : Locals) (s1 s2 : Manager) (e : exn) :
  intake env message s = (Returned l, s1) →
  dispatch env message l s1 = (Raised e, s2) →
  process_message env message s = (Raised e, s2).
Proof.
  intros Hin Hdisp. unfold process_message.
  unfold bind at 1. rewrite Hin. unfold bind at 1. rewrite Hdisp. reflexivity.
Qed.

(** C4. For a submitted message, one that carries the identifier minted
    for it, an identifier that is not pending when the call begins
    (identifiers are unique): whenever [process_message] returns, the
    identifier is not in the pending list (which is as it was before the
    call), and the task created for the message, stored in the registry and
    bound to the identifier, has as its history exactly the message followed
    by the response, the response being the content of the last event.  The
    call does return, unless no agent is registered and the log call of
    line 135 raises. *)
Theorem pending_cleared_history_pair (env : Env) (message : Message) (mid : string)
    (s : Manager) :
  has_message_id message mid →
  mid ∉ _pending_message_ids s →
  (∀ s', process_message env message s = (Returned tt, s') →
     (mid ∉ _pending_message_ids s')
     ∧ _pending_message_ids s' = _pending_message_ids s
     ∧ length (objects s) ∈ _tasks s'
     ∧ _task_map s' !! mid = Some (task_id (objects s' !!! length (objects s)))
     ∧ ∃ response,
         history (objects s' !!! length (objects s)) = Some [message; response]
         ∧ content <$> last (_events s') = Some response)
  ∧ ((_agents s = [] → is_returned (logged_text message) = true) →
     ∃ s', process_message env message s = (Returned tt, s')).
Proof.
  intros Hid Hfresh.
  destruct (process_message_run env message mid s Hid) as (l & s1 & Hin & Hpost & Hrun).
  pose proof (dispatch_total env message l s1) as Htotal.
  destruct (dispatch env message l s1) as [[[response|]|e] s2] eqn:Hdisp.
  - destruct Htotal as (_ & f & -> & Hf).
    destruct (Hrun response f eq_refl Hf) as (s'' & Hproc & Hdone).
    split; [|by eauto].
    intros s' Hs'. rewrite Hproc in Hs'. injection Hs' as <-.
    pose proof (done_pending _ _ _ _ _ _ _ Hdone) as Hp.
    rewrite remove_first_app_new in Hp by exact Hfresh. injection Hp as Hp.
    rewrite (done_task _ _ _ _ _ _ _ Hdone), (done_bound _ _ _ _ _ _ _ Hdone).
    split_and!.
    + by rewrite <- Hp.
    + by rewrite <- Hp.
    + exact (done_stored _ _ _ _ _ _ _ Hdone).
    + cbn. by destruct (Hf (submitted_task env message)) as [_ ->].
    + exists (stamped env message response). split; [reflexivity|].
      eapply process_post_last_event; eauto.
  - done.
  - destruct Htotal as (Hag & Hlog & ->).
    rewrite (process_message_dispatch_raises _ _ _ _ _ _ _ Hin Hdisp).
    split; [discriminate|].
    intros Hret. rewrite (post_agents _ _ _ _ _ _ Hpost) in Hag.
    specialize (Hret Hag). rewrite Hlog in Hret. discriminate.
Qed.

(** ** No agent registered *)

(** Lines 149-153, for a message that gets past the log call of line 135:
    its first part is a text part, or it has no parts. *)
Lemma no_agents_no_llm_fixed_response (env : Env) (message : Message) (mid : string)
    (s : Manager) (logged : string) :
  has_message_id message mid →
  _agents s = [] →
  _llm s = None →
  logged_text message = Returned logged →
  ∃ s' response,
    process_message env message s = (Returned tt, s')
    ∧ response = stamped env message
                   (agent_text "No agents are currently registered or available.")
    ∧ history (objects s' !!! length (objects s)) = Some [message; response]
    ∧ status_state (status (objects s' !!! length (objects s))) = COMPLETED.
Proof.
  intros Hid Hag Hllm Hlog.
  destruct (process_message_run env message mid s Hid) as (l & s1 & Hin & Hpost & Hrun).
  pose proof (dispatch_no_agents_no_llm env message l s1 logged) as Hdisp.
  rewrite (post_agents _ _ _ _ _ _ Hpost), (post_llm _ _ _ _ _ _ Hpost) in Hdisp.
  specialize (Hdisp Hag Hllm Hlog).
  destruct (Hrun _ _ Hdisp) as (s' & Hproc & Hdone); [auto with history|].
  eexists s', _. rewrite (done_task _ _ _ _ _ _ _ Hdone).
  split_and!; try reflexivity. exact Hproc.
Qed.

(** The same call for a message whose first part is not a text part: the
    log call raises [AttributeError] out of [process_message]; no response
    is produced, the task stays SUBMITTED with the message alone in its
    history, and the identifier stays pending. *)
Lemma no_agents_first_part_not_text (env : Env) (message : Message) (mid : string)
    (s : Manager) (part : Part) (ps : list Part) :
  has_message_id message mid →
  _agents s = [] →
  parts message = part :: ps →
  is_TextPart part = false →
  ∃ e s',
    process_message env message s = (Raised e, s')
    ∧ exn_class e = AttributeError
    ∧ mid ∈ _pending_message_ids s'
    ∧ objects s' !!! length (objects s) = submitted_task env message
    ∧ _events s' = _events s ++
        [{| event_id := uuid4 env 0; actor := "host"; content := message;
            timestamp := utcnow env 0 |}].
Proof.
  intros Hid Hag Hparts Htext.
  destruct (intake_run env message mid s Hid) as (l & s1 & Hin & Hpost).
  assert (Hlog : ∃ e, logged_text message = Raised e ∧ exn_class e = AttributeError).
  { unfold logged_text. rewrite Hparts. destruct part; [discriminate|..]; cbn; eauto. }
  destruct Hlog as (e & Hlog & Hcls).
  exists e, s1. split_and!.
  - eapply process_message_dispatch_raises; [exact Hin|].
    apply dispatch_no_agents_log_raises; [|exact Hlog].
    by rewrite (post_agents _ _ _ _ _ _ Hpost).
  - exact Hcls.
  - rewrite (post_pending _ _ _ _ _ _ Hpost). set_solver.
  - by rewrite (post_objects _ _ _ _ _ _ Hpost), lookup_fresh.
  - exact (post_events _ _ _ _ _ _ Hpost).
Qed.

(* ================================================================== *)
(** * Dispatch at the worked inputs *)
(* ================================================================== *)

Lemma hello_has_id : has_message_id hello "m1".
Proof. eexists. split; reflexivity. Defined.

Lemma chart_has_id : has_message_id chart "m1".
Proof. eexists. split; reflexivity. Defined.

(** C6, at the failing input: no agent registered, no model client, and a
    message whose only part is a data part.  [process_message] raises
    [AttributeError]; the task is left SUBMITTED with the message alone in its
    history, the identifier is left pending and no agent event is logged. *)
Theorem no_agents_data_part_raises :
  let run := process_message (env_with (Returned reply_completed)) chart fresh_manager in
  _agents fresh_manager = []
  ∧ _llm fresh_manager = None
  ∧ has_message_id chart "m1"
  ∧ run.1 = Raised (Exn AttributeError "'DataPart' object has no attribute 'text'")
  ∧ _pending_message_ids run.2 = ["m1"]
  ∧ status_state (status (objects run.2 !!! 0%nat)) = SUBMITTED
  ∧ history (objects run.2 !!! 0%nat) = Some [chart]
  ∧ actor <$> _events run.2 = ["host"].
Proof.
  cbv zeta. split_and!; try (vm_compute; reflexivity). exact chart_has_id.
Qed.

(** C1, as stated, fails when the reply carries a protocol error next to
    an INPUT_REQUIRED result with a status message: the error branch of
    lines 174-179 comes first, so the task ends in state ERROR, the response
    is the error text and the artifacts are not copied. *)
Lemma input_required_after_protocol_error :
  let env := env_with (Returned reply_error_and_result) in
  let run := process_message env hello manager_with_echo in
  has_message_id hello "m1"
  ∧ _agents manager_with_echo = [echo_card]
  ∧ send_task env echo_card (payload_of env hello) = Returned reply_error_and_result
  ∧ response_result reply_error_and_result = Some result_input_required
  ∧ status_state (status result_input_required) = INPUT_REQUIRED
  ∧ status_message (status result_input_required) = Some ask
  ∧ run.1 = Returned tt
  ∧ status_state (status (objects run.2 !!! 0%nat)) = ERROR
  ∧ status_state (status (objects run.2 !!! 0%nat)) ≠ INPUT_REQUIRED
  ∧ parts <$> (history (objects run.2 !!! 0%nat) ≫= last)
    = Some [TextPart "Error communicating with agent: boom"]
  ∧ parts <$> (history (objects run.2 !!! 0%nat) ≫= last) ≠ Some (parts ask)
  ∧ artifacts (objects run.2 !!! 0%nat) = None
  ∧ artifacts (objects run.2 !!! 0%nat) ≠ artifacts result_input_required.
Proof.
  cbv zeta. split_and!; try (vm_compute; reflexivity); try (vm_compute; discriminate).
  exact hello_has_id.
Qed.

(* ================================================================== *)
(** * The theorems at the worked inputs *)
(* ================================================================== *)

Lemma input_required_branch_witness :
  ∃ s', process_message (env_with (Returned reply_input_required)) hello manager_with_echo
          = (Returned tt, s')
        ∧ status_state (status (objects s' !!! 0%nat)) = INPUT_REQUIRED
        ∧ artifacts (objects s' !!! 0%nat) = Some [report]
        ∧ history (objects s' !!! 0%nat)
          = Some [hello; stamped (env_with (Returned reply_input_required)) hello
                           (set_role "agent" ask)].
Proof.
  destruct (input_required_branch (env_with (Returned reply_input_required)) hello "m1"
              manager_with_echo echo_card [] reply_input_required result_input_required ask
              hello_has_id eq_refl eq_refl eq_refl eq_refl eq_refl eq_refl)
    as (l & s1 & s2 & s' & _ & _ & _ & _ & _ & _ & Hrun & Hhist & _ & Hstate & Hart).
  exists s'. split_and!; [exact Hrun|exact Hstate|exact Hart|exact Hhist].
Defined.

Lemma history_branch_witness :
  ∃ s', process_message (env_with (Returned reply_completed)) hello manager_with_echo
          = (Returned tt, s')
        ∧ status_state (status (objects s' !!! 0%nat)) = COMPLETED
        ∧ artifacts (objects s' !!! 0%nat) = Some [report]
        ∧ history (objects s' !!! 0%nat)
          = Some [hello; stamped (env_with (Returned reply_completed)) hello answer].
Proof.
  assert (Hnot : ¬ (status_state (status result_completed) = INPUT_REQUIRED
                    ∧ is_Some (status_message (status result_completed))))
    by (intros [H _]; discriminate H).
  assert (Hne : [hello; answer] ≠ []) by discriminate.
  destruct (history_branch (env_with (Returned reply_completed)) hello "m1"
              manager_with_echo echo_card [] reply_completed result_completed [hello; answer]
              hello_has_id eq_refl eq_refl eq_refl eq_refl Hnot eq_refl Hne)
    as (m & l & s1 & s2 & s' & Hlast & _ & _ & Hrun & Hhist & _ & _ & _ & Hstate & Hart).
  injection Hlast as <-.
  exists s'. split_and!; [exact Hrun|exact Hstate|exact Hart|exact Hhist].
Defined.

Lemma agent_exception_absorbed_witness :
  ∃ s' response text error,
    process_message (env_with (Raised (Exn ConnectionError_ "refused"))) hello
      manager_with_echo = (Returned tt, s')
    ∧ role response = "agent"
    ∧ parts response = [TextPart text]
    ∧ contains "Failed to communicate with the registered agent" text
    ∧ history (objects s' !!! 0%nat) = Some [hello; response]
    ∧ content <$> last (_events s') = Some response
    ∧ status_state (status (objects s' !!! 0%nat)) = ERROR
    ∧ status_error (status (objects s' !!! 0%nat)) = Some error
    ∧ error_code error = -32603.
Proof.
  exact (agent_exception_absorbed (env_with (Raised (Exn ConnectionError_ "refused")))
           hello "m1" manager_with_echo echo_card [] (Exn ConnectionError_ "refused")
           hello_has_id eq_refl eq_refl).
Defined.

Lemma pending_cleared_history_pair_witness :
  ∃ s' response,
    process_message (env_with (Returned reply_completed)) hello fresh_manager
      = (Returned tt, s')
    ∧ ("m1" ∉ _pending_message_ids s')
    ∧ history (objects s' !!! 0%nat) = Some [hello; response].
Proof.
  assert (Hfresh : "m1" ∉ _pending_message_ids fresh_manager) by apply not_elem_of_nil.
  destruct (pending_cleared_history_pair (env_with (Returned reply_completed)) hello "m1"
              fresh_manager hello_has_id Hfresh) as [Hpost Hreturns].
  destruct Hreturns as [s' Hrun]; [reflexivity|].
  destruct (Hpost s' Hrun) as (Hgone & _ & _ & _ & response & Hhist & _).
  exists s', response. split_and!; [exact Hrun|exact Hgone|exact Hhist].
Defined.

Lemma get_pending_messages_first_only_witness :
  _pending_message_ids manager_two_pending = ["m2"; "m9"]
  ∧ ∃ rval : list item,
      get_pending_messages manager_two_pending = (Returned rval, manager_two_pending)
      ∧ (length rval ≤ 1)%nat
      ∧ (∀ e, e ∈ rval → ∃ status, e = Entry "m2" status)
      ∧ (∀ other status, other ∈ ["m9"] → other ≠ "m2" → Entry other status ∉ rval)
      ∧ (get_pending_messages (with_pending (fun _ => ["m2"]) manager_two_pending)).1
        = Returned rval.
Proof.
  split; [reflexivity|].
  exact (get_pending_messages_first_only manager_two_pending "m2" ["m9"] eq_refl).
Defined.

Lemma get_pending_messages_empty_parts_witness :
  _pending_message_ids manager_awaiting = ["m2"]
  ∧ get_pending_messages manager_awaiting = (Returned [], manager_awaiting).
Proof.
  split; [reflexivity|].
  exact (get_pending_messages_empty_parts manager_awaiting "m2" [] "uuid-1"
           (submitted_task (env_with (Returned reply_completed)) silent) [silent] silent
           eq_refl eq_refl eq_refl eq_refl eq_refl eq_refl).
Defined.

Lemma register_agent_backfills_url_witness :
  ∃ card : AgentCard,
    register_agent example_http "example.com" fresh_manager
      = (Returned tt, with_agents (fun l => l ++ [card]) fresh_manager)
    ∧ _agents (register_agent example_http "example.com" fresh_manager).2
      = _agents fresh_manager ++ [card]
    ∧ card_name card = Some "echo"
    ∧ card_url card = Some "http://example.com".
Proof.
  assert (Hstatus : ¬ (400 ≤ 200 < 600)) by lia.
  exact (register_agent_backfills_url example_http fresh_manager
           {| status_code := 200; reason := "OK";
              json := Returned (JObject {[ "name" := JStr "echo" ]}) |}
           {[ "name" := JStr "echo" ]} "echo"
           eq_refl Hstatus eq_refl eq_refl eq_refl).
Defined.

Lemma register_agent_failure_no_mutation_witness :
  ∃ e : exn,
    get_agent_card example_http "example.org" = Raised e
    ∧ register_agent example_http "example.org" manager_with_echo
      = (Raised e, manager_with_echo)
    ∧ _agents (register_agent example_http "example.org" manager_with_echo).2
      = _agents manager_with_echo.
Proof.
  apply register_agent_failure_no_mutation.
  apply (request_raises example_http "example.org"
           (Exn ConnectionError_ "Max retries exceeded")).
  reflexivity.
Defined.

Lemma update_task_idempotent_noop_witness :
  (update_task 0%nat ;; update_task 0%nat) manager_after_hello
    = update_task 0%nat manager_after_hello
  ∧ update_task 0%nat manager_unstored = (Returned tt, manager_unstored).
Proof.
  split.
  - exact (proj1 (update_task_idempotent_noop 0%nat manager_after_hello)).
  - apply (proj2 (proj2 (update_task_idempotent_noop 0%nat manager_unstored))).
    intros r Hr. by apply elem_of_nil in Hr.
Defined.


(* ================================================================== *)
(** * Further properties of dispatch and registration *)
(* ================================================================== *)

(** X1. A protocol error in the reply comes first (lines 174-179): the
    response is the error text, the task is in state ERROR and carries the
    error object received, whatever the result next to it is. *)
Theorem protocol_error_branch (env : Env) (message : Message) (mid : string)
    (s : Manager) (target_agent : AgentCard) (rest : list AgentCard)
    (task_response : SendTaskResponse) (error : JSONRPCError) :
  has_message_id message mid →
  _agents s = target_agent :: rest →
  send_task env target_agent (payload_of env message) = Returned task_response →
  response_error task_response = Some error →
  ∃ s' : Manager,
    process_message env message s = (Returned tt, s')
    ∧ history (objects s' !!! length (objects s))
      = Some [message;
              stamped env message
                (agent_text ("Error communicating with agent: " +:+ error_message error))]
    ∧ status_state (status (objects s' !!! length (objects s))) = ERROR
    ∧ status_error (status (objects s' !!! length (objects s))) = Some error
    ∧ artifacts (objects s' !!! length (objects s)) = None.
Proof.
  intros Hid Hag Hsend Herr.
  destruct (process_message_run env message mid s Hid) as (l & s1 & _ & Hpost & Hrun).
  pose proof (dispatch_protocol_error env message l s1
                (post_task_id _ _ _ _ _ _ Hpost) (post_conversation_id _ _ _ _ _ _ Hpost)
                target_agent rest) as Hdisp.
  rewrite (post_agents _ _ _ _ _ _ Hpost) in Hdisp.
  specialize (Hdisp Hag task_response error Hsend Herr).
  rewrite on_task_compose in Hdisp.
  destruct (Hrun _ _ Hdisp) as (s' & Hproc & Hdone); [auto with history|].
  exists s'. rewrite (done_task _ _ _ _ _ _ _ Hdone).
  split_and!; try reflexivity. exact Hproc.
Qed.

Lemma protocol_error_branch_witness :
  ∃ s' : Manager,
    process_message (env_with (Returned reply_error_and_result)) hello manager_with_echo
      = (Returned tt, s')
    ∧ status_state (status (objects s' !!! 0%nat)) = ERROR
    ∧ status_error (status (objects s' !!! 0%nat)) = Some boom.
Proof.
  destruct (protocol_error_branch (env_with (Returned reply_error_and_result)) hello "m1"
              manager_with_echo echo_card [] reply_error_and_result boom
              hello_has_id eq_refl eq_refl eq_refl)
    as (s' & Hrun & _ & Hstate & Herror & _).
  exists s'. split_and!; [exact Hrun|exact Hstate|exact Herror].
Defined.

(** X2. The routing decision never leaves [response] unset: the safety net
    of lines 257-266 is not reached. *)
Theorem safety_net_unreachable (env : Env) (message : Message) (l : Locals)
    (s1 : Manager) :
  (dispatch env message l s1).1 ≠ Returned None.
Proof.
  pose proof (dispatch_total env message l s1) as Htotal.
  destruct (dispatch env message l s1) as [[[response|]|e] s2]; cbn; [discriminate|done|discriminate].
Qed.

(** X3. With no agent registered and no model client, a message with no
    parts or with a text part first gets the fixed answer, and its task is
    COMPLETED. *)
Theorem no_agents_fixed_response_for_text (env : Env) (message : Message)
    (mid : string) (s : Manager) :
  has_message_id message mid →
  _agents s = [] →
  _llm s = None →
  match parts message with [] => True | part :: _ => is_TextPart part = true end →
  ∃ s' response,
    process_message env message s = (Returned tt, s')
    ∧ role response = "agent"
    ∧ parts response = [TextPart "No agents are currently registered or available."]
    ∧ history (objects s' !!! length (objects s)) = Some [message; response]
    ∧ status_state (status (objects s' !!! length (objects s))) = COMPLETED.
Proof.
  intros Hid Hag Hllm Hparts.
  assert (Hlog : ∃ logged, logged_text message = Returned logged).
  { unfold logged_text. destruct (parts message) as [|[text|data] ps]; cbn; eauto.
    discriminate. }
  destruct Hlog as [logged Hlog].
  destruct (no_agents_no_llm_fixed_response env message mid s logged Hid Hag Hllm Hlog)
    as (s' & response & Hrun & -> & Hhist & Hstate).
  exists s', (stamped env message
                (agent_text "No agents are currently registered or available.")).
  split_and!; try reflexivity; assumption.
Qed.

Lemma no_agents_fixed_response_for_text_witness :
  ∃ s' response,
    process_message (env_with (Returned reply_completed)) hello fresh_manager
      = (Returned tt, s')
    ∧ role response = "agent"
    ∧ parts response = [TextPart "No agents are currently registered or available."]
    ∧ history (objects s' !!! 0%nat) = Some [hello; response]
    ∧ status_state (status (objects s' !!! 0%nat)) = COMPLETED.
Proof.
  exact (no_agents_fixed_response_for_text (env_with (Returned reply_completed)) hello "m1"
           fresh_manager hello_has_id eq_refl eq_refl eq_refl).
Defined.

(** X4. With no agent registered, a message whose first part is not a text
    part makes [process_message] raise [AttributeError] (line 135), with the
    task left SUBMITTED and the identifier left pending. *)
Theorem no_agents_non_text_raises (env : Env) (message : Message) (mid : string)
    (s : Manager) (part : Part) (ps : list Part) :
  has_message_id message mid →
  _agents s = [] →
  parts message = part :: ps →
  is_TextPart part = false →
  ∃ e s',
    process_message env message s = (Raised e, s')
    ∧ exn_class e = AttributeError
    ∧ mid ∈ _pending_message_ids s'
    ∧ status_state (status (objects s' !!! length (objects s))) = SUBMITTED
    ∧ history (objects s' !!! length (objects s)) = Some [message].
Proof.
  intros Hid Hag Hparts Htext.
  destruct (no_agents_first_part_not_text env message mid s part ps Hid Hag Hparts Htext)
    as (e & s' & Hrun & Hcls & Hpend & Hobj & _).
  exists e, s'. rewrite Hobj. split_and!; try reflexivity; assumption.
Qed.

Lemma no_agents_non_text_raises_witness :
  ∃ e s',
    process_message (env_with (Returned reply_completed)) chart fresh_manager = (Raised e, s')
    ∧ exn_class e = AttributeError
    ∧ "m1" ∈ _pending_message_ids s'
    ∧ status_state (status (objects s' !!! 0%nat)) = SUBMITTED
    ∧ history (objects s' !!! 0%nat) = Some [chart].
Proof.
  exact (no_agents_non_text_raises (env_with (Returned reply_completed)) chart "m1"
           fresh_manager (DataPart [("kind", "chart")]) [] chart_has_id
           eq_refl eq_refl eq_refl).
Defined.

(** X5. When [requests.get] itself raises a request exception that is no
    timeout, the handler of lines 44-50 reads the local [response] before
    anything was bound to it: what reaches the caller of [get_agent_card] is
    an [UnboundLocalError], not the [ValueError] of line 50. *)
Theorem connection_failure_unbound_local (http : Http) (address : string) (e : exn) :
  requests_get http (agent_card_url_of address) 10 = Raised e →
  isinstance e RequestsTimeout = false →
  isinstance e RequestException = true →
  ∃ e', get_agent_card http address = Raised e' ∧ exn_class e' = UnboundLocalError.
Proof.
  intros Hget Hnt Hre. unfold get_agent_card. fold (agent_card_url_of address).
  rewrite Hget. unfold except_clauses. rewrite Hnt, Hre. eauto.
Qed.

Lemma connection_failure_unbound_local_witness :
  ∃ e', get_agent_card example_http "example.org" = Raised e'
        ∧ exn_class e' = UnboundLocalError.
Proof.
  exact (connection_failure_unbound_local example_http "example.org"
           (Exn ConnectionError_ "Max retries exceeded") eq_refl eq_refl eq_refl).
Defined.



(** X7. Registration does not look for duplicates: registering an address
    twice, discovery succeeding both times, appends the descriptor twice. *)
Theorem register_agent_twice (http : Http) (url : string) (s : Manager) (card : AgentCard) :
  get_agent_card http url = Returned card →
  ∃ stored : AgentCard,
    (register_agent http url ;; register_agent http url) s
      = (Returned tt, with_agents (fun l => l ++ [stored; stored]) s)
    ∧ card_name stored = card_name card
    ∧ (truthy_opt_str (card_url card) = true → stored = card).
Proof.
  intros Hcard. unfold register_agent, bind, lift, modify. rewrite Hcard.
  eexists. split; [|split].
  - unfold with_agents. cbn. rewrite <- app_assoc. reflexivity.
  - destruct (truthy_opt_str (card_url card)); reflexivity.
  - intros ->. reflexivity.
Qed.

Lemma register_agent_twice_witness :
  ∃ stored : AgentCard,
    (register_agent example_http "example.com" ;; register_agent example_http "example.com")
      fresh_manager
      = (Returned tt, with_agents (fun l => l ++ [stored; stored]) fresh_manager)
    ∧ card_name stored = Some "echo"
    ∧ (true = true → stored = echo_card).
Proof.
  exact (register_agent_twice example_http "example.com" fresh_manager echo_card eq_refl).
Defined.

(** X8. [sanitize_message] always mints the identifier: the message it
    returns carries the identifier drawn, whatever identifier it had, keeps
    every other metadata key, its role and its parts. *)
Theorem sanitize_message_mints (env : Env) (message : Message) :
  has_message_id (sanitize_message env message) (uuid4 env 0)
  ∧ role (sanitize_message env message) = role message
  ∧ parts (sanitize_message env message) = parts message
  ∧ ∀ k, k ≠ "message_id" →
      default ∅ (metadata (sanitize_message env message)) !! k
      = default ∅ (metadata message) !! k.
Proof.
  split_and!; [apply sanitize_message_has_id|reflexivity|reflexivity|].
  intros k Hk. unfold sanitize_message. cbn.
  rewrite lookup_insert_ne by congruence.
  destruct (metadata message); reflexivity.
Qed.

(** The model fallback (lines 136-148), for a message that gets past the
    log call. *)
Lemma dispatch_llm (env : Env) (message : Message) (l : Locals) (s1 : Manager)
    (llm : ChatOpenAI) (logged : string) :
  _agents s1 = [] → _llm s1 = Some llm →
  logged_text message = Returned logged →
  dispatch env message l s1 =
    match ainvoke env llm fallback_prompt with
    | Returned response_text =>
        (Returned (Some (agent_text response_text)),
         on_task l (set_status_state COMPLETED) s1)
    | Raised e =>
        (Returned (Some (agent_text
           "Sorry, no agents are registered and I encountered an error trying to generate a specific response.")),
         on_task l (set_status_error
                      (Some (internal_error
                         ("Internal error during LLM fallback: " +:+ exn_str e)))
                    ∘ set_status_state ERROR) s1)
    end.
Proof.
  intros Hag Hllm Hlog. unfold dispatch, llm_fallback.
  unfold bind at 1. unfold gets at 1. rewrite Hag.
  unfold bind at 1. unfold lift at 1. rewrite Hlog.
  unfold bind at 1. unfold gets at 1. rewrite Hllm.
  unfold try_except, bind, lift, setattr, modify, ret.
  destruct (ainvoke env llm fallback_prompt) as [text|e]; [reflexivity|].
  rewrite <- on_task_compose. reflexivity.
Qed.

(** X9. With no agent registered and a model client configured, a failure
    of the model call is absorbed: [process_message] returns, the response
    is the fixed apology, the task is in state ERROR with an error of code
    -32603 whose message carries the failure. *)
Theorem llm_failure_absorbed (env : Env) (message : Message) (mid : string)
    (s : Manager) (llm : ChatOpenAI) (logged : string) (e : exn) :
  has_message_id message mid →
  _agents s = [] →
  _llm s = Some llm →
  logged_text message = Returned logged →
  ainvoke env llm fallback_prompt = Raised e →
  ∃ s' : Manager,
    process_message env message s = (Returned tt, s')
    ∧ history (objects s' !!! length (objects s))
      = Some [message;
              stamped env message (agent_text
                "Sorry, no agents are registered and I encountered an error trying to generate a specific response.")]
    ∧ status_state (status (objects s' !!! length (objects s))) = ERROR
    ∧ status_error (status (objects s' !!! length (objects s)))
      = Some {| error_code := -32603;
                error_message := "Internal error during LLM fallback: " +:+ exn_str e |}.
Proof.
  intros Hid Hag Hllm Hlog Hinv.
  destruct (process_message_run env message mid s Hid) as (l & s1 & _ & Hpost & Hrun).
  pose proof (dispatch_llm env message l s1 llm logged) as Hdisp.
  rewrite (post_agents _ _ _ _ _ _ Hpost), (post_llm _ _ _ _ _ _ Hpost) in Hdisp.
  specialize (Hdisp Hag Hllm Hlog). rewrite Hinv in Hdisp.
  destruct (Hrun _ _ Hdisp) as (s' & Hproc & Hdone); [auto with history|].
  exists s'. rewrite (done_task _ _ _ _ _ _ _ Hdone).
  split_and!; try reflexivity. exact Hproc.
Qed.

(** X10. The same route when the model call returns: the text returned is
    the response and the task is COMPLETED. *)
Theorem llm_fallback_completed (env : Env) (message : Message) (mid : string)
    (s : Manager) (llm : ChatOpenAI) (logged text : string) :
  has_message_id message mid →
  _agents s = [] →
  _llm s = Some llm →
  logged_text message = Returned logged →
  ainvoke env llm fallback_prompt = Returned text →
  ∃ s' : Manager,
    process_message env message s = (Returned tt, s')
    ∧ history (objects s' !!! length (objects s))
      = Some [message; stamped env message (agent_text text)]
    ∧ status_state (status (objects s' !!! length (objects s))) = COMPLETED
    ∧ status_error (status (objects s' !!! length (objects s))) = None.
Proof.
  intros Hid Hag Hllm Hlog Hinv.
  destruct (process_message_run env message mid s Hid) as (l & s1 & _ & Hpost & Hrun).
  pose proof (dispatch_llm env message l s1 llm logged) as Hdisp.
  rewrite (post_agents _ _ _ _ _ _ Hpost), (post_llm _ _ _ _ _ _ Hpost) in Hdisp.
  specialize (Hdisp Hag Hllm Hlog). rewrite Hinv in Hdisp.
  destruct (Hrun _ _ Hdisp) as (s' & Hproc & Hdone); [auto with history|].
  exists s'. rewrite (done_task _ _ _ _ _ _ _ Hdone).
  split_and!; try reflexivity. exact Hproc.
Qed.

Lemma llm_failure_absorbed_witness :
  ∃ s' : Manager,
    process_message (env_model (Raised (Exn Exception_ "rate limit"))) hello
      manager_with_model = (Returned tt, s')
    ∧ status_state (status (objects s' !!! 0%nat)) = ERROR
    ∧ status_error (status (objects s' !!! 0%nat))
      = Some {| error_code := -32603;
                error_message := "Internal error during LLM fallback: rate limit" |}.
Proof.
  destruct (llm_failure_absorbed (env_model (Raised (Exn Exception_ "rate limit"))) hello
              "m1" manager_with_model
              {| llm_model := "value of LLM_MODEL"; llm_api_key := "value of OPENAI_API_KEY";
                 llm_base_url := "value of OPENAI_API_BASE" |}
              "hello" (Exn Exception_ "rate limit")
              hello_has_id eq_refl eq_refl eq_refl eq_refl)
    as (s' & Hrun & _ & Hstate & Herror).
  exists s'. split_and!; [exact Hrun|exact Hstate|exact Herror].
Defined.

Lemma llm_fallback_completed_witness :
  ∃ s' : Manager,
    process_message (env_model (Returned "Nobody is here yet.")) hello manager_with_model
      = (Returned tt, s')
    ∧ history (objects s' !!! 0%nat)
      = Some [hello; stamped (env_model (Returned "Nobody is here yet.")) hello
                       (agent_text "Nobody is here yet.")]
    ∧ status_state (status (objects s' !!! 0%nat)) = COMPLETED
    ∧ status_error (status (objects s' !!! 0%nat)) = None.
Proof.
  exact (llm_fallback_completed (env_model (Returned "Nobody is here yet.")) hello
           "m1" manager_with_model
           {| llm_model := "value of LLM_MODEL"; llm_api_key := "value of OPENAI_API_KEY";
              llm_base_url := "value of OPENAI_API_BASE" |}
           "hello" "Nobody is here yet."
           hello_has_id eq_refl eq_refl eq_refl eq_refl).
Defined.

(** The scan of lines 207-220 finds the first text part of all the parts
    in order. *)
Lemma first_text_in_parts_find (ps : list Part) :
  first_text_in_parts ps = snd <$> list_find (fun part => is_TextPart part = true) ps.
Proof.
  induction ps as [|part ps IH]; [reflexivity|].
  cbn. destruct (is_TextPart part) eqn:Hp.
  - rewrite decide_True by done. reflexivity.
  - rewrite decide_False by discriminate.
    rewrite IH. destruct (list_find _ ps) as [[i q]|]; reflexivity.
Qed.

Lemma first_text_part_find (arts : list Artifact) :
  first_text_part arts = first_text_of arts.
Proof.
  unfold first_text_of. induction arts as [|artifact arts IH]; [reflexivity|].
  cbn [first_text_part]. rewrite bind_cons.
  assert (Hscan : (if truthy_list (artifact_parts artifact)
                   then first_text_in_parts (artifact_parts artifact) else None)
                  = first_text_in_parts (artifact_parts artifact)).
  { destruct (artifact_parts artifact); reflexivity. }
  rewrite Hscan, first_text_in_parts_find, IH.
  destruct (list_find _ (artifact_parts artifact)) as [[i q]|] eqn:Hfind.
  - erewrite list_find_app_l by exact Hfind. reflexivity.
  - rewrite list_find_app_r by exact Hfind.
    destruct (list_find _ (arts ≫= artifact_parts)) as [[i q]|]; reflexivity.
Qed.

(** Lines 204-227: no status message to use, no history, some artifacts. *)
Lemma interpret_artifacts (task : ref) (task_result : Task) (s : Manager)
    (arts : list Artifact) :
  ¬ (status_state (status task_result) = INPUT_REQUIRED
     ∧ is_Some (status_message (status task_result))) →
  truthy_opt_list (history task_result) = false →
  artifacts task_result = Some arts →
  arts ≠ [] →
  interpret_result task task_result s =
    (Returned (Some
       match first_text_of arts with
       | Some part => {| role := "agent"; parts := [part]; metadata := None |}
       | None => agent_text "Agent returned data, but not in a displayable text format."
       end),
     with_objects (alter (set_artifacts (Some arts)) task)
       (with_objects (alter (set_status_state COMPLETED) task) s)).
Proof.
  intros Hnot Hh Ha Hne. unfold interpret_result.
  assert (Hcond : match TaskState_eqb (status_state (status task_result)) INPUT_REQUIRED,
                        status_message (status task_result) with
                  | true, Some _ => False | _, _ => True end).
  { destruct (TaskState_eqb _ INPUT_REQUIRED) eqn:Hst; [|done].
    destruct (status_message (status task_result)) eqn:Hm; [|done].
    apply Hnot. split; [by apply TaskState_eqb_eq|eauto]. }
  rewrite Ha. destruct arts as [|a arts]; [done|].
  rewrite <- first_text_part_find.
  destruct (TaskState_eqb _ INPUT_REQUIRED);
    destruct (status_message (status task_result)); try done;
    destruct (history task_result) as [[|m0 h']|]; try discriminate;
    destruct (first_text_part (a :: arts)); reflexivity.
Qed.

(** X11. When the agent's reply carries no protocol error, its result does
    not take the INPUT_REQUIRED branch, has no history and has artifacts:
    the response is an agent message made of the first text part found, the
    parts of all artifacts read in order, or the fixed text when there is no
    text part; in both cases the task is COMPLETED and has the artifacts of
    the result. *)
Theorem artifacts_branch (env : Env) (message : Message) (mid : string)
    (s : Manager) (target_agent : AgentCard) (rest : list AgentCard)
    (task_response : SendTaskResponse) (task_result : Task) (arts : list Artifact) :
  has_message_id message mid →
  _agents s = target_agent :: rest →
  send_task env target_agent (payload_of env message) = Returned task_response →
  response_error task_response = None →
  response_result task_response = Some task_result →
  ¬ (status_state (status task_result) = INPUT_REQUIRED
     ∧ is_Some (status_message (status task_result))) →
  truthy_opt_list (history task_result) = false →
  artifacts task_result = Some arts →
  arts ≠ [] →
  ∃ (s' : Manager) (response : Message),
    process_message env message s = (Returned tt, s')
    ∧ role response = "agent"
    ∧ parts response =
        match first_text_of arts with
        | Some part => [part]
        | None => [TextPart "Agent returned data, but not in a displayable text format."]
        end
    ∧ history (objects s' !!! length (objects s)) = Some [message; response]
    ∧ status_state (status (objects s' !!! length (objects s))) = COMPLETED
    ∧ artifacts (objects s' !!! length (objects s)) = Some arts.
Proof.
  intros Hid Hag Hsend Herr Hres Hnot Hh Ha Hne.
  destruct (process_message_run env message mid s Hid) as (l & s1 & Hin & Hpost & Hrun).
  pose proof (dispatch_result env message l s1
                (post_task_id _ _ _ _ _ _ Hpost) (post_conversation_id _ _ _ _ _ _ Hpost)
                target_agent rest) as Hdisp.
  rewrite (post_agents _ _ _ _ _ _ Hpost) in Hdisp.
  specialize (Hdisp Hag task_response task_result Hsend Herr Hres).
  rewrite (interpret_artifacts _ _ _ arts Hnot Hh Ha Hne) in Hdisp.
  fold (on_task l (set_status_state COMPLETED) s1) in Hdisp.
  fold (on_task l (set_artifacts (Some arts)) (on_task l (set_status_state COMPLETED) s1))
    in Hdisp.
  rewrite on_task_compose in Hdisp.
  destruct (Hrun _ _ Hdisp) as (s' & Hproc & Hdone); [auto with history|].
  eexists s', _.
  rewrite (done_task _ _ _ _ _ _ _ Hdone).
  split_and!; [exact Hproc| | |reflexivity|reflexivity|reflexivity].
  - destruct (first_text_of arts); reflexivity.
  - destruct (first_text_of arts); reflexivity.
Qed.

Lemma artifacts_branch_witness :
  ∃ (s' : Manager) (response : Message),
    process_message (env_with (Returned reply_artifacts)) hello manager_with_echo
      = (Returned tt, s')
    ∧ role response = "agent"
    ∧ parts response = [TextPart "Rain by month"]
    ∧ history (objects s' !!! 0%nat) = Some [hello; response]
    ∧ status_state (status (objects s' !!! 0%nat)) = COMPLETED
    ∧ artifacts (objects s' !!! 0%nat) = artifacts result_artifacts.
Proof.
  assert (Hnot : ¬ (status_state (status result_artifacts) = INPUT_REQUIRED
                    ∧ is_Some (status_message (status result_artifacts))))
    by (intros [H _]; discriminate H).
  assert (Hne : default [] (artifacts result_artifacts) ≠ []) by discriminate.
  exact (artifacts_branch (env_with (Returned reply_artifacts)) hello "m1"
           manager_with_echo echo_card [] reply_artifacts result_artifacts
           (default [] (artifacts result_artifacts))
           hello_has_id eq_refl eq_refl eq_refl eq_refl Hnot eq_refl eq_refl Hne).
Defined.

(* ================================================================== *)
(** * The states of a call *)
(* ================================================================== *)

Lemma conversation_append_run (conversation : option (nat * Conversation)) (m : Message)
    (s : Manager) :
  conversation_append conversation m s = (Returned tt, appended_to conversation m s).
Proof. destruct conversation as [[i c]|]; reflexivity. Qed.

(** What [appended_to] leaves alone. *)
Lemma appended_to_frame (conversation : option (nat * Conversation)) (m : Message)
    (s : Manager) :
  let s' := appended_to conversation m s in
  objects s' = objects s ∧ _pending_message_ids s' = _pending_message_ids s
  ∧ _events s' = _events s ∧ _agents s' = _agents s ∧ _messages s' = _messages s
  ∧ _tasks s' = _tasks s ∧ _task_map s' = _task_map s ∧ _llm s' = _llm s.
Proof. destruct conversation as [[i c]|]; cbn; done. Qed.

Lemma get_conversation_reads (cid : option string) (s1 s2 : Manager) :
  _conversations s1 = _conversations s2 → get_conversation cid s1 = get_conversation cid s2.
Proof. intros H. unfold get_conversation. by rewrite H. Qed.

(** Intake, written out. *)
Lemma intake_explicit (env : Env) (message : Message) (mid : string) (s : Manager) :
  has_message_id message mid →
  intake env message s
    = (Returned (intake_locals env message mid s), intake_state env message mid s).
Proof.
  intros Hid. unfold intake.
  unfold bind at 1. unfold modify at 1.
  unfold bind at 1. unfold lift at 1. rewrite (metadata_getitem_id _ _ Hid).
  unfold bind at 1. unfold modify at 1.
  unfold bind at 1. unfold gets at 1.
  rewrite (get_conversation_reads _ _ s) by reflexivity.
  unfold bind at 1. rewrite conversation_append_run.
  unfold add_event, new_object, add_task, bind, modify, ret.
  unfold intake_locals, intake_state, named_conversation, host_event.
  destruct (appended_to_frame
              (get_conversation (default ∅ (metadata message) !! "conversation_id") s)
              message
              (with_pending (fun l => l ++ [mid])
                 (with_messages (fun l => l ++ [message]) s))) as (Ho & _).
  cbn in Ho. cbn. rewrite Ho. reflexivity.
Qed.

(** Reconciliation, written out: everything up to the closing
    [update_task]. *)
Lemma reconcile_explicit (env : Env) (message : Message) (mid : string) (l : Locals)
    (response : Message) (h : list Message) (pending' : list string) (s2 : Manager) :
  has_message_id message mid →
  remove_first mid (_pending_message_ids s2) = Some pending' →
  history (objects s2 !!! l_task l) = Some h →
  reconcile env message l (Some response) s2
    = update_task (l_task l) (reconciled_state env message l response h pending' s2).
Proof.
  intros Hid Hrm Hh. unfold reconcile.
  unfold bind at 1. unfold ret at 1.
  change (set_metadata _ response) with (stamped env message response).
  unfold bind at 1. rewrite conversation_append_run.
  destruct (appended_to_frame (l_conversation l) (stamped env message response) s2)
    as (Ho & Hp & _).
  cbn zeta in Ho, Hp.
  unfold bind at 1. unfold add_event at 1, modify at 1.
  unfold bind at 1. unfold lift at 1. rewrite (metadata_getitem_id _ _ Hid).
  unfold bind at 1. unfold pending_remove at 1. cbn [_pending_message_ids with_events].
  rewrite Hp, Hrm.
  unfold bind at 1. unfold history_append.
  unfold bind at 1. unfold deref at 1, gets at 1. cbn [objects with_pending with_events].
  rewrite Ho, Hh. reflexivity.
Qed.

(** The attributes of the manager at the end of intake. *)
Lemma intake_state_attrs (env : Env) (message : Message) (mid : string) (s : Manager) :
  let s1 := intake_state env message mid s in
  _conversations s1
    = _conversations (appended_to (get_conversation (named_conversation message) s)
                        message s)
  ∧ _messages s1 = _messages s ++ [message]
  ∧ _tasks s1 = _tasks s ++ [length (objects s)]
  ∧ _events s1 = _events s ++ [host_event env message]
  ∧ _pending_message_ids s1 = _pending_message_ids s ++ [mid]
  ∧ _agents s1 = _agents s
  ∧ _task_map s1 = <[mid := uuid4 env 1]> (_task_map s)
  ∧ _llm s1 = _llm s
  ∧ objects s1 = objects s ++ [submitted_task env message].
Proof.
  unfold intake_state.
  destruct (get_conversation (named_conversation message) s) as [[i c]|]; cbn; done.
Qed.

(** The attributes of the manager before the closing [update_task]. *)
Lemma reconciled_state_attrs (env : Env) (message : Message) (l : Locals)
    (response : Message) (h : list Message) (pending' : list string) (s2 : Manager) :
  let s3 := reconciled_state env message l response h pending' s2 in
  _conversations s3
    = _conversations (appended_to (l_conversation l) (stamped env message response) s2)
  ∧ _messages s3 = _messages s2
  ∧ _tasks s3 = _tasks s2
  ∧ _events s3 = _events s2 ++ [agent_event env (stamped env message response)]
  ∧ _pending_message_ids s3 = pending'
  ∧ _agents s3 = _agents s2
  ∧ _task_map s3 = _task_map s2
  ∧ _llm s3 = _llm s2
  ∧ objects s3
    = alter (set_history (Some (h ++ [stamped env message response]))) (l_task l)
        (objects s2).
Proof.
  unfold reconciled_state.
  destruct (l_conversation l) as [[i c]|]; cbn; done.
Qed.

(** A call that returns, written out: the routing decision gave a response
    and wrote to the task of the call only, and the state is the one the
    closing [update_task] leaves. *)
Lemma process_message_returned (env : Env) (message : Message) (mid : string)
    (s s' : Manager) :
  has_message_id message mid →
  process_message env message s = (Returned tt, s') →
  ∃ (response : Message) (f : Task → Task) (pending' : list string),
    let l := intake_locals env message mid s in
    let s1 := intake_state env message mid s in
    keeps_history f
    ∧ dispatch env message l s1 = (Returned (Some response), on_task l f s1)
    ∧ remove_first mid (_pending_message_ids s ++ [mid]) = Some pending'
    ∧ update_task (length (objects s))
        (reconciled_state env message l response [message] pending' (on_task l f s1))
      = (Returned tt, s').
Proof.
  intros Hid Hrun. cbn zeta.
  set (l := intake_locals env message mid s).
  set (s1 := intake_state env message mid s).
  pose proof (intake_explicit env message mid s Hid) as Hin. fold l s1 in Hin.
  pose proof (dispatch_total env message l s1) as Htotal.
  destruct (dispatch env message l s1) as [[[response|]|e] s2] eqn:Hdisp.
  - destruct Htotal as (_ & f & -> & Hf).
    destruct (intake_state_attrs env message mid s)
      as (_ & _ & _ & _ & Hp & _ & _ & _ & Ho). fold s1 in Hp, Ho.
    destruct (remove_first_elem_of mid (_pending_message_ids s ++ [mid]))
      as (pending' & Hrm & _); [set_solver|].
    exists response, f, pending'. split_and!; [exact Hf|reflexivity|exact Hrm|].
    rewrite <- Hrun. unfold process_message.
    unfold bind at 1. rewrite Hin. unfold bind at 1. rewrite Hdisp.
    symmetry. apply (reconcile_explicit env message mid l response [message] pending').
    + exact Hid.
    + unfold on_task. cbn [_pending_message_ids with_objects]. by rewrite Hp.
    + unfold on_task. cbn [objects with_objects]. rewrite Ho.
      change (l_task l) with (length (objects s)).
      rewrite alter_fresh, lookup_fresh. by destruct (Hf (submitted_task env message)).
  - done.
  - destruct Htotal as (_ & _ & ->).
    rewrite (process_message_dispatch_raises _ _ _ _ _ _ _ Hin Hdisp) in Hrun.
    discriminate.
Qed.

(** The same, with the state the call ends in. *)
Lemma process_message_returned_post (env : Env) (message : Message) (mid : string)
    (s s' : Manager) :
  has_message_id message mid →
  process_message env message s = (Returned tt, s') →
  ∃ (response : Message) (f : Task → Task) (pending' : list string),
    keeps_history f
    ∧ process_post env message mid f response s s'
    ∧ update_task (length (objects s))
        (reconciled_state env message (intake_locals env message mid s) response
           [message] pending'
           (on_task (intake_locals env message mid s) f (intake_state env message mid s)))
      = (Returned tt, s').
Proof.
  intros Hid Hrun.
  destruct (process_message_returned env message mid s s' Hid Hrun)
    as (response & f & pending' & Hf & Hdisp & _ & Hupd).
  destruct (process_message_run env message mid s Hid) as (l & s1 & Hin & _ & Hpost).
  rewrite (intake_explicit env message mid s Hid) in Hin. injection Hin as <- <-.
  destruct (Hpost response f Hdisp Hf) as (s'' & Hrun' & Hdone).
  rewrite Hrun in Hrun'. injection Hrun' as <-.
  exists response, f, pending'. done.
Qed.

(** X12. A call that returns leaves this footprint, and no other: the
    message is appended to the message log; two events are appended, the
    host event with the message and then the agent event with the response;
    one task object is created, with the task identifier drawn, and every
    task object that existed is untouched; the task list grows by one; the
    message identifier is bound to the new task identifier; the agent
    directory and the model client are as they were. *)
Theorem process_message_footprint (env : Env) (message : Message) (mid : string)
    (s s' : Manager) :
  has_message_id message mid →
  process_message env message s = (Returned tt, s') →
  ∃ (response : Message) (t : Task),
    _messages s' = _messages s ++ [message]
    ∧ _events s' = _events s ++ [host_event env message; agent_event env response]
    ∧ objects s' = objects s ++ [t]
    ∧ task_id t = uuid4 env 1
    ∧ history t = Some [message; response]
    ∧ length (_tasks s') = S (length (_tasks s))
    ∧ _task_map s' = <[mid := uuid4 env 1]> (_task_map s)
    ∧ _agents s' = _agents s
    ∧ _llm s' = _llm s.
Proof.
  intros Hid Hrun.
  destruct (process_message_returned_post env message mid s s' Hid Hrun)
    as (response & f & pending' & Hf & Hdone & Hupd).
  set (l := intake_locals env message mid s) in *.
  set (s1 := intake_state env message mid s) in *.
  set (s3 := reconciled_state env message l response [message] pending' (on_task l f s1))
    in *.
  pose proof (update_task_frame (length (objects s)) s3) as Hframe.
  cbv zeta in Hframe. rewrite Hupd in Hframe. simpl snd in Hframe.
  destruct Hframe as (_ & _ & _ & _ & Hm & _ & Hmap & Hllm & Hlen).
  destruct (reconciled_state_attrs env message l response [message] pending'
              (on_task l f s1)) as (_ & Hm3 & Ht3 & _ & _ & _ & Hmap3 & Hllm3 & _).
  fold s3 in Hm3, Ht3, Hmap3, Hllm3.
  destruct (intake_state_attrs env message mid s)
    as (_ & Hm1 & Ht1 & _ & _ & _ & Hmap1 & Hllm1 & _).
  fold s1 in Hm1, Ht1, Hmap1, Hllm1.
  exists (stamped env message response), (final_task env message f response).
  split_and!.
  - rewrite Hm, Hm3. exact Hm1.
  - exact (done_events _ _ _ _ _ _ _ Hdone).
  - exact (done_objects _ _ _ _ _ _ _ Hdone).
  - cbn. by destruct (Hf (submitted_task env message)) as [_ ->].
  - reflexivity.
  - rewrite Hlen, Ht3. unfold on_task. cbn [_tasks with_objects].
    rewrite Ht1, length_app. cbn. lia.
  - rewrite Hmap, Hmap3. exact Hmap1.
  - exact (done_agents _ _ _ _ _ _ _ Hdone).
  - rewrite Hllm, Hllm3. exact Hllm1.
Qed.

(** X13. A call that returns appends to the conversation the message names,
    when there is one, first the message and then the response (the last
    entry of the task's history), and leaves every other conversation as it
    is; when the message names no conversation, or one that does not exist,
    no conversation changes. *)
Theorem conversation_gets_message_and_response (env : Env) (message : Message)
    (mid : string) (s s' : Manager) :
  has_message_id message mid →
  process_message env message s = (Returned tt, s') →
  ∃ response : Message,
    history (objects s' !!! length (objects s)) = Some [message; response]
    ∧ match get_conversation (named_conversation message) s with
      | Some (i, c) =>
          _conversations s' !! i
            = Some {| conversation_id := conversation_id c; is_active := is_active c;
                      messages := messages c ++ [message; response] |}
          ∧ (∀ j, j ≠ i → _conversations s' !! j = _conversations s !! j)
          ∧ length (_conversations s') = length (_conversations s)
      | None => _conversations s' = _conversations s
      end.
Proof.
  intros Hid Hrun.
  destruct (process_message_returned_post env message mid s s' Hid Hrun)
    as (response & f & pending' & Hf & Hdone & Hupd).
  set (l := intake_locals env message mid s) in *.
  set (s1 := intake_state env message mid s) in *.
  set (s3 := reconciled_state env message l response [message] pending' (on_task l f s1))
    in *.
  pose proof (update_task_frame (length (objects s)) s3) as Hframe.
  cbv zeta in Hframe. rewrite Hupd in Hframe. simpl snd in Hframe.
  destruct Hframe as (_ & _ & _ & _ & _ & Hc & _).
  destruct (reconciled_state_attrs env message l response [message] pending'
              (on_task l f s1)) as (Hc3 & _).
  fold s3 in Hc3.
  destruct (intake_state_attrs env message mid s) as (Hc1 & _). fold s1 in Hc1.
  exists (stamped env message response). split.
  { rewrite (done_task _ _ _ _ _ _ _ Hdone). reflexivity. }
  rewrite Hc, Hc3. change (l_conversation l)
    with (get_conversation (named_conversation message) s).
  destruct (get_conversation (named_conversation message) s) as [[i c]|] eqn:Hget.
  - assert (Hi : _conversations s !! i = Some c).
    { unfold get_conversation in Hget.
      destruct (negb (truthy_opt_str (named_conversation message))); [discriminate|].
      by apply list_find_Some in Hget as (? & _). }
    unfold appended_to, on_task. cbn [_conversations with_conversations with_objects].
    rewrite Hc1. unfold appended_to. cbn [_conversations with_conversations].
    split_and!.
    + rewrite !list_lookup_alter_eq, Hi. cbn. unfold add_message. cbn.
      by rewrite <- app_assoc.
    + intros j Hj. by rewrite !list_lookup_alter_ne.
    + by rewrite !length_alter.
  - unfold appended_to, on_task. cbn [_conversations with_objects]. exact Hc1.
Qed.

(** After [update_task], looking a task up by the identifier of the task
    passed finds that very task, if it was stored. *)
Lemma update_task_finds (task : ref) (s : Manager) :
  task ∈ _tasks s →
  find_task (task_id (objects s !!! task)) (update_task task s).2
    = (Returned (Some (objects s !!! task)), (update_task task s).2).
Proof.
  intros Hin. rewrite update_task_run. cbn [snd].
  destruct (list_find _ (_tasks s)) as [[i r]|] eqn:Hfind.
  - apply list_find_Some in Hfind as (Hi & HP & Hbefore).
    set (s1 := with_tasks (fun l => <[i := task]> l) s).
    assert (Hfind' : list_find (has_task_id s1 (task_id (objects s !!! task)))
                       (_tasks s1) = Some (i, task)).
    { apply list_find_Some. subst s1. cbn [_tasks with_tasks]. split_and!.
      - apply list_lookup_insert_eq. by eapply lookup_lt_Some.
      - reflexivity.
      - intros j y Hj Hji. rewrite list_lookup_insert_ne in Hj by lia.
        by eapply Hbefore. }
    unfold find_task, gets. rewrite Hfind'. reflexivity.
  - exfalso. apply list_find_None in Hfind.
    rewrite Forall_forall in Hfind. by apply (Hfind task Hin).
Qed.

(** X14. After a call that returns, the task identifier bound to the
    message identifier leads to the task of that call: the lookup by
    identifier that [get_pending_messages] uses finds the task whose history
    is the message followed by the response, even when an older stored task
    has the same identifier. *)
Theorem bound_task_is_found (env : Env) (message : Message) (mid : string)
    (s s' : Manager) :
  has_message_id message mid →
  process_message env message s = (Returned tt, s') →
  ∃ (tid : string) (response : Message),
    _task_map s' !! mid = Some tid
    ∧ find_task tid s' = (Returned (Some (objects s' !!! length (objects s))), s')
    ∧ history (objects s' !!! length (objects s)) = Some [message; response].
Proof.
  intros Hid Hrun.
  destruct (process_message_returned_post env message mid s s' Hid Hrun)
    as (response & f & pending' & Hf & Hdone & Hupd).
  set (l := intake_locals env message mid s) in *.
  set (s1 := intake_state env message mid s) in *.
  set (s3 := reconciled_state env message l response [message] pending' (on_task l f s1))
    in *.
  destruct (reconciled_state_attrs env message l response [message] pending'
              (on_task l f s1)) as (_ & _ & Ht3 & _ & _ & _ & _ & _ & Ho3).
  fold s3 in Ht3, Ho3.
  destruct (intake_state_attrs env message mid s)
    as (_ & _ & Ht1 & _ & _ & _ & _ & _ & Ho1).
  fold s1 in Ht1, Ho1.
  assert (Hobj : objects s3 !!! length (objects s) = final_task env message f response).
  { rewrite Ho3. unfold on_task. cbn [objects with_objects]. rewrite Ho1.
    change (l_task l) with (length (objects s)).
    rewrite !alter_fresh, lookup_fresh. reflexivity. }
  assert (Hin : length (objects s) ∈ _tasks s3).
  { rewrite Ht3. unfold on_task. cbn [_tasks with_objects]. rewrite Ht1. set_solver. }
  pose proof (update_task_finds (length (objects s)) s3 Hin) as Hfound.
  rewrite Hupd in Hfound. simpl snd in Hfound. unfold ref in Hfound.
  rewrite Hobj in Hfound.
  exists (uuid4 env 1), (stamped env message response).
  rewrite (done_task _ _ _ _ _ _ _ Hdone).
  split_and!.
  - exact (done_bound _ _ _ _ _ _ _ Hdone).
  - rewrite <- Hfound. f_equal. cbn. by destruct (Hf (submitted_task env message)) as [_ ->].
  - reflexivity.
Qed.

(** The summary at the end of intake, for a manager with nothing pending
    and no stored task of the identifier drawn. *)
Lemma pending_after_intake (env : Env) (message : Message) (mid : string) (s : Manager) :
  _pending_message_ids s = [] →
  refs_allocated s →
  task_id_unused (uuid4 env 1) s →
  get_pending_messages (intake_state env message mid s)
    = (Returned match parts message with
                | [] => []
                | _ :: _ => [Entry mid "Working..."]
                end,
       intake_state env message mid s).
Proof.
  intros Hp Halloc Hunused.
  set (s1 := intake_state env message mid s).
  destruct (intake_state_attrs env message mid s)
    as (_ & _ & Ht1 & _ & Hp1 & _ & Hmap1 & _ & Ho1).
  fold s1 in Ht1, Hp1, Hmap1, Ho1. rewrite Hp in Hp1. cbn in Hp1.
  destruct (get_pending_messages_first s1 mid [] Hp1) as (rval & Hbody & ->).
  f_equal. f_equal.
  assert (Hfind : list_find (has_task_id s1 (uuid4 env 1)) (_tasks s1)
                  = Some (length (_tasks s), length (objects s))).
  { rewrite Ht1. apply list_find_Some. split_and!.
    - by rewrite list_lookup_middle.
    - unfold has_task_id. rewrite Ho1, lookup_fresh. reflexivity.
    - intros j r Hj Hlt. rewrite lookup_app_l in Hj by exact Hlt.
      apply list_elem_of_lookup_2 in Hj.
      unfold has_task_id. rewrite Ho1, lookup_total_app_l by by apply Halloc.
      by apply Hunused. }
  revert Hbody. unfold pending_body.
  unfold bind at 1. unfold gets at 1. rewrite Hmap1, lookup_insert_eq.
  unfold bind at 1. unfold bind at 1. unfold find_task, gets. rewrite Hfind.
  unfold ref. rewrite Ho1, lookup_fresh. cbn [submitted_task Task_new history].
  cbn [last default]. destruct (parts message) as [|part ps]; cbn; by intros [= <-].
Qed.

(** X15. While a call awaits its collaborator (intake done, lines 96-126),
    with nothing else pending and the task identifier drawn not in use, the
    pending summary has one entry, the message identifier with "Working...";
    for a message without parts it is empty: the pending message is not
    listed at all. *)
Theorem pending_summary_while_awaiting (env : Env) (message : Message) (mid : string)
    (s : Manager) :
  has_message_id message mid →
  _pending_message_ids s = [] →
  refs_allocated s →
  task_id_unused (uuid4 env 1) s →
  ∃ (l : Locals) (s1 : Manager),
    intake env message s = (Returned l, s1)
    ∧ _pending_message_ids s1 = [mid]
    ∧ get_pending_messages s1
      = (Returned match parts message with
                  | [] => []
                  | _ :: _ => [Entry mid "Working..."]
                  end, s1).
Proof.
  intros Hid Hp Halloc Hunused.
  exists (intake_locals env message mid s), (intake_state env message mid s).
  split_and!.
  - by apply intake_explicit.
  - destruct (intake_state_attrs env message mid s) as (_ & _ & _ & _ & -> & _).
    by rewrite Hp.
  - by apply pending_after_intake.
Qed.

(** X16. After the failure of the log call of line 135 (no agent
    registered, first part without text), with nothing else pending and the
    task identifier drawn not in use, the pending summary keeps showing the
    message identifier with "Working...": no later step removes it. *)
Theorem pending_summary_after_log_failure (env : Env) (message : Message)
    (mid : string) (s : Manager) (part : Part) (ps : list Part) :
  has_message_id message mid →
  _agents s = [] →
  parts message = part :: ps →
  is_TextPart part = false →
  _pending_message_ids s = [] →
  refs_allocated s →
  task_id_unused (uuid4 env 1) s →
  ∃ (e : exn) (s' : Manager),
    process_message env message s = (Raised e, s')
    ∧ get_pending_messages s' = (Returned [Entry mid "Working..."], s').
Proof.
  intros Hid Hag Hparts Htext Hp Halloc Hunused.
  assert (Hlog : ∃ e, logged_text message = Raised e).
  { unfold logged_text. rewrite Hparts. destruct part; [discriminate|]; cbn; eauto. }
  destruct Hlog as (e & Hlog).
  exists e, (intake_state env message mid s). split.
  - eapply process_message_dispatch_raises; [by apply intake_explicit|].
    apply dispatch_no_agents_log_raises; [|exact Hlog].
    by destruct (intake_state_attrs env message mid s) as (_ & _ & _ & _ & _ & -> & _).
  - rewrite (pending_after_intake env message mid s Hp Halloc Hunused).
    by rewrite Hparts.
Qed.

(** X17. [get_pending_messages] only reads: whatever the manager, it
    returns without raising and leaves the manager as it is; the list has at
    most one element, and is empty when nothing is pending. *)
Theorem get_pending_messages_reads_only (s : Manager) :
  ∃ rval : list item,
    get_pending_messages s = (Returned rval, s)
    ∧ (length rval ≤ 1)%nat
    ∧ (_pending_message_ids s = [] → rval = []).
Proof.
  destruct (_pending_message_ids s) as [|mid rest] eqn:Hp.
  - exists []. split_and!; [|cbn; lia|done].
    unfold get_pending_messages, bind, gets. rewrite Hp. cbn. by rewrite Hp.
  - destruct (pending_body_run mid [] s) as (added & Hrun & Hlen & _).
    destruct (get_pending_messages_first s mid rest Hp) as (rval & Hbody & Hget).
    rewrite Hrun in Hbody. injection Hbody as <-.
    exists added. split_and!; [exact Hget|exact Hlen|discriminate].
Qed.

(** Two runs of [c ;; k] agree when their parts do. *)
Lemma bind_agree {S A B} (c c' : Py S A) (k k' : A → Py S B) (s : S) :
  c' s = c s →
  (∀ a s1, c s = (Returned a, s1) → k' a s1 = k a s1) →
  bind c' k' s = bind c k s.
Proof.
  intros Hc Hk. unfold bind. rewrite Hc.
  destruct (c s) as [[a|e] s1] eqn:Hcs; [by apply Hk|reflexivity].
Qed.

(** Two environments that draw the same identifiers and read the same
    clock give the same intake and the same reconciliation. *)
Section same_draws.
Context (env env' : Env).
Hypothesis Huuid : ∀ n, uuid4 env' n = uuid4 env n.
Hypothesis Hclock : ∀ n, utcnow env' n = utcnow env n.

Lemma intake_same_draws (message : Message) (s : Manager) :
  intake env' message s = intake env message s.
Proof. unfold intake, add_event. rewrite !Huuid, !Hclock. reflexivity. Qed.

Lemma reconcile_same_draws (message : Message) (l : Locals) (response : option Message)
    (s : Manager) :
  reconcile env' message l response s = reconcile env message l response s.
Proof. unfold reconcile, add_event. rewrite !Huuid, !Hclock. reflexivity. Qed.

(** X18. A call consults one collaborator at most: with an agent
    registered, the first registered one, with the payload of the call; with
    none, the model client if there is one.  Two environments that agree on
    the identifiers drawn, on the clock and on that one answer give the same
    outcome and the same manager, whatever the other agents or the model
    would have answered. *)
Theorem one_collaborator_consulted (message : Message) (mid : string) (s : Manager) :
  has_message_id message mid →
  match _agents s with
  | target_agent :: _ =>
      send_task env' target_agent (payload_of env message)
      = send_task env target_agent (payload_of env message)
  | [] =>
      ∀ llm, _llm s = Some llm →
             ainvoke env' llm fallback_prompt = ainvoke env llm fallback_prompt
  end →
  process_message env' message s = process_message env message s.
Proof.
  intros Hid Hsame. unfold process_message.
  apply bind_agree; [apply intake_same_draws|].
  intros l s1 Hin. rewrite (intake_explicit env message mid s Hid) in Hin.
  injection Hin as <- <-.
  apply bind_agree; [|intros response s2 _; apply reconcile_same_draws].
  destruct (intake_state_attrs env message mid s)
    as (_ & _ & _ & _ & _ & Hag & _ & Hllm & _).
  unfold dispatch. apply bind_agree; [reflexivity|].
  intros agents s1 Hg.
  assert (Ha : agents = _agents s) by (unfold gets in Hg; injection Hg as <- _; exact Hag).
  assert (Hs : s1 = intake_state env message mid s) by (unfold gets in Hg; by injection Hg).
  subst agents s1. clear Hg.
  destruct (_agents s) as [|target_agent rest].
  - unfold llm_fallback. apply bind_agree; [reflexivity|].
    intros logged s1 Hlog. apply bind_agree; [reflexivity|].
    intros llm s2 Hllm2.
    assert (s2 = s1 ∧ llm = _llm s1) as [-> ->] by (unfold gets in Hllm2; by simplify_eq).
    destruct (_llm s1) as [c|] eqn:Hc; [|reflexivity].
    unfold try_except. unfold lift in Hlog. injection Hlog as _ <-.
    rewrite Hllm in Hc.
    assert (Hb : bind (lift (ainvoke env' c fallback_prompt))
                   (fun response_text =>
                      bind (setattr (length (objects s)) (set_status_state COMPLETED))
                        (fun _ => ret (Some (agent_text response_text))))
                   (intake_state env message mid s)
                 = bind (lift (ainvoke env c fallback_prompt))
                   (fun response_text =>
                      bind (setattr (length (objects s)) (set_status_state COMPLETED))
                        (fun _ => ret (Some (agent_text response_text))))
                   (intake_state env message mid s))
      by (by rewrite (Hsame c Hc)).
    cbn [l_task intake_locals]. by rewrite Hb.
  - unfold route_to_agent, try_except.
    assert (Hb : send_task env' target_agent
                   {| payload_id := l_task_id (intake_locals env message mid s);
                      payload_sessionId := l_conversation_id (intake_locals env message mid s);
                      payload_acceptedOutputModes := ["text"; "text/plain"];
                      payload_message := message |}
                 = send_task env target_agent
                   {| payload_id := l_task_id (intake_locals env message mid s);
                      payload_sessionId := l_conversation_id (intake_locals env message mid s);
                      payload_acceptedOutputModes := ["text"; "text/plain"];
                      payload_message := message |}) by exact Hsame.
    by rewrite Hb.
Qed.
End same_draws.

(* ================================================================== *)
(** * The address and the card *)
(* ================================================================== *)

Lemma prefix_cons (a : ascii) (p s : string) :
  String.prefix (String a p) s = true → ∃ s', s = String a s' ∧ String.prefix p s' = true.
Proof.
  destruct s as [|b s']; simpl; [discriminate|].
  destruct (ascii_dec a b) as [->|]; [eauto|discriminate].
Qed.







Lemma all_char_rev_app (c : ascii) (s acc : string) :
  all_char c (String.rev_app s acc) = all_char c s && all_char c acc.
Proof.
  revert acc. induction s as [|a s IH]; intros acc; cbn; [reflexivity|].
  rewrite IH. cbn. destruct (decide (a = c)); [reflexivity|]. by rewrite andb_false_r.
Qed.

Lemma rev_app_empty (s acc : string) :
  String.rev_app s acc = "" → s = "" ∧ acc = "".
Proof.
  revert acc. induction s as [|a s IH]; intros acc; cbn; [done|].
  intros H. by destruct (IH _ H) as [_ ?].
Qed.

Lemma lstrip_char_nonempty (s : string) (c : ascii) :
  all_char c s = false → lstrip_char s c ≠ "".
Proof.
  induction s as [|a s IH]; cbn; [discriminate|].
  destruct (decide (a = c)); [exact IH|discriminate].
Qed.

(** Stripping a character from the right leaves something when the string
    has another character. *)
Lemma rstrip_char_nonempty (s : string) (c : ascii) :
  all_char c s = false → rstrip_char s c ≠ "".
Proof.
  intros Hs Hempty. unfold rstrip_char, String.rev in Hempty.
  apply rev_app_empty in Hempty as [Hempty _].
  revert Hempty. apply lstrip_char_nonempty.
  rewrite all_char_rev_app, Hs. reflexivity.
Qed.

(** The base URL starts with the letter of its scheme. *)
Lemma base_url_head (address : string) :
  ∃ r, base_url_of address = String "h" r.
Proof.
  unfold base_url_of.
  set (cleaned := remove_whitespace address).
  assert (H : ∃ r, (if negb (startswith cleaned "http://" || startswith cleaned "https://")
                    then "http://" +:+ cleaned else cleaned) = String "h" r).
  { destruct (startswith cleaned "http://") eqn:H1; simpl.
    - apply prefix_cons in H1 as (r & -> & _). eauto.
    - destruct (startswith cleaned "https://") eqn:H2; simpl; [|eauto].
      apply prefix_cons in H2 as (r & -> & _). eauto. }
  destruct H as [r ->]. destruct (negb _); simpl; eauto.
Qed.

Lemma truthy_opt_str_Some (x : string) : x ≠ "" → truthy_opt_str (Some x) = true.
Proof. by destruct x. Qed.

Lemma backfilled_url_truthy (address : string) :
  truthy_opt_str (Some (rstrip_char (base_url_of address) "/"%char)) = true.
Proof.
  apply truthy_opt_str_Some, rstrip_char_nonempty.
  destruct (base_url_head address) as [r ->]. reflexivity.
Qed.



(** X21. A card returned by [get_agent_card] always has a non-empty url, so
    the test of lines 330-331 never fires: [register_agent] stores the card
    as returned, and never the raw address it was given. *)
Theorem returned_card_has_url (http : Http) (address : string) (card : AgentCard)
    (s : Manager) :
  get_agent_card http address = Returned card →
  truthy_opt_str (card_url card) = true
  ∧ register_agent http address s = (Returned tt, with_agents (fun l => l ++ [card]) s).
Proof.
  intros Hcard.
  assert (Htruthy : truthy_opt_str (card_url card) = true).
  { revert Hcard. unfold get_agent_card.
    destruct (requests_get http _ 10) as [response|e0].
    2: { destruct (except_clauses_raise (remove_whitespace address) None e0) as [e' ->].
         discriminate. }
    destruct (raise_for_status _ response) as [[]|e1].
    2: { destruct (except_clauses_raise (remove_whitespace address) (Some response) e1)
           as [e' ->]. discriminate. }
    destruct (json response) as [data|e2].
    2: { destruct (except_clauses_raise (remove_whitespace address) (Some response) e2)
           as [e' ->]. discriminate. }
    destruct (AgentCard_of data) as [card0|e3].
    2: { destruct (except_clauses_raise (remove_whitespace address) (Some response) e3)
           as [e' ->]. discriminate. }
    destruct (truthy_opt_str (card_url card0)) eqn:Ht; simpl; intros [= <-].
    - exact Ht.
    - apply backfilled_url_truthy. }
  split; [exact Htruthy|].
  unfold register_agent, bind, lift. rewrite Hcard, Htruthy. reflexivity.
Qed.

(** X22. Whatever goes wrong in [get_agent_card], the caller gets a
    [ValueError], with one exception: when [requests.get] itself raises a
    request exception that is no timeout, the caller gets an
    [UnboundLocalError]. *)
Theorem get_agent_card_failure_class (http : Http) (address : string) (e : exn) :
  get_agent_card http address = Raised e →
  exn_class e = ValueError
  ∨ (exn_class e = UnboundLocalError
     ∧ ∃ e0, requests_get http (agent_card_url_of address) 10 = Raised e0
             ∧ isinstance e0 RequestsTimeout = false
             ∧ isinstance e0 RequestException = true).
Proof.
  assert (Hbound : ∀ response e0 e',
            except_clauses (remove_whitespace address) (Some response) e0 = Raised e' →
            exn_class e' = ValueError).
  { intros response e0 e'. unfold except_clauses.
    destruct (isinstance e0 RequestsTimeout); [by intros [= <-]|].
    destruct (isinstance e0 RequestException); [by intros [= <-]|].
    destruct (isinstance e0 ValueError); by intros [= <-]. }
  unfold get_agent_card. fold (agent_card_url_of address).
  destruct (requests_get http _ 10) as [response|e0] eqn:Hget.
  - destruct (raise_for_status _ response) as [[]|e1]; [|left; by eapply Hbound].
    destruct (json response) as [data|e2]; [|left; by eapply Hbound].
    destruct (AgentCard_of data) as [card0|e3]; [discriminate|left; by eapply Hbound].
  - unfold except_clauses.
    destruct (isinstance e0 RequestsTimeout) eqn:Ht; [intros [= <-]; by left|].
    destruct (isinstance e0 RequestException) eqn:Hr.
    + intros [= <-]. right. split; [reflexivity|]. by exists e0.
    + destruct (isinstance e0 ValueError); intros [= <-]; by left.
Qed.


(* ================================================================== *)
(** * Conversations, the registry and the entry of a call *)
(* ================================================================== *)

(** X24. A conversation just created is found by its identifier at the end
    of the store, unless an older conversation has the same identifier, in
    which case the older one is found; a missing or empty identifier finds
    nothing. *)
Theorem created_conversation_is_found (env : Env) (s : Manager) :
  uuid4 env 0 ≠ "" →
  ∃ (c : Conversation) (s' : Manager),
    create_conversation env s = (Returned c, s')
    ∧ c = {| conversation_id := uuid4 env 0; is_active := true; messages := [] |}
    ∧ _conversations s' = _conversations s ++ [c]
    ∧ get_conversation (Some (uuid4 env 0)) s'
      = match get_conversation (Some (uuid4 env 0)) s with
        | Some older => Some older
        | None => Some (length (_conversations s), c)
        end
    ∧ get_conversation None s' = None
    ∧ get_conversation (Some "") s' = None.
Proof.
  intros Hid. eexists _, _. split; [reflexivity|]. split; [reflexivity|].
  split; [reflexivity|]. split; [|done].
  unfold get_conversation. rewrite (truthy_opt_str_Some _ Hid). cbv [negb].
  cbn [_conversations with_conversations].
  destruct (list_find _ (_conversations s)) as [[i older]|] eqn:Hfind.
  - by erewrite list_find_app_l.
  - rewrite list_find_app_r by exact Hfind. cbn.
    rewrite decide_True by reflexivity. reflexivity.
Qed.

(** X25. [update_task] overwrites one entry, the first whose task has the
    identifier of the task passed: every other entry stays, later entries
    with the same identifier included, the list keeps its length and no task
    object changes. *)
Theorem update_task_first_match_only (task : ref) (s : Manager) (i : nat) (r : ref) :
  _tasks s !! i = Some r →
  task_id (objects s !!! r) = task_id (objects s !!! task) →
  (∀ j r', (j < i)%nat → _tasks s !! j = Some r' →
           task_id (objects s !!! r') ≠ task_id (objects s !!! task)) →
  ∃ s' : Manager,
    update_task task s = (Returned tt, s')
    ∧ _tasks s' !! i = Some task
    ∧ (∀ j, j ≠ i → _tasks s' !! j = _tasks s !! j)
    ∧ length (_tasks s') = length (_tasks s)
    ∧ objects s' = objects s.
Proof.
  intros Hi Hsame Hbefore.
  assert (Hfind : list_find (has_task_id s (task_id (objects s !!! task))) (_tasks s)
                  = Some (i, r)).
  { apply list_find_Some. split_and!; [exact Hi|exact Hsame|].
    intros j r' Hj Hlt. by eapply Hbefore. }
  eexists. rewrite update_task_run, Hfind. split; [reflexivity|].
  cbn [_tasks objects with_tasks]. split_and!.
  - apply list_lookup_insert_eq. by eapply lookup_lt_Some.
  - intros j Hj. by rewrite list_lookup_insert_ne.
  - by rewrite length_insert.
  - reflexivity.
Qed.

(** X26. Sanitising and then processing works for every message, with or
    without metadata: unless no agent is registered and the log call of
    line 135 raises, the call returns, the identifier minted is bound to the
    task created, and the history of that task is the sanitised message
    followed by a response. *)
Theorem sanitized_message_is_processed (env0 env : Env) (message : Message) (s : Manager) :
  (_agents s = [] → is_returned (logged_text message) = true) →
  ∃ (s' : Manager) (response : Message),
    process_message env (sanitize_message env0 message) s = (Returned tt, s')
    ∧ _task_map s' !! uuid4 env0 0 = Some (uuid4 env 1)
    ∧ history (objects s' !!! length (objects s))
      = Some [sanitize_message env0 message; response].
Proof.
  intros Hlog.
  pose proof (sanitize_message_has_id env0 message) as Hid.
  destruct (process_message_run env _ _ s Hid) as (l & s1 & Hin & Hpost & Hrun).
  pose proof (dispatch_total env (sanitize_message env0 message) l s1) as Htotal.
  destruct (dispatch env (sanitize_message env0 message) l s1)
    as [[[response|]|e] s2] eqn:Hdisp.
  - destruct Htotal as (_ & f & -> & Hf).
    destruct (Hrun response f eq_refl Hf) as (s' & Hproc & Hdone).
    exists s', (stamped env (sanitize_message env0 message) response).
    rewrite (done_task _ _ _ _ _ _ _ Hdone).
    split_and!; [exact Hproc|exact (done_bound _ _ _ _ _ _ _ Hdone)|reflexivity].
  - done.
  - destruct Htotal as (Hag & Hraise & _).
    rewrite (post_agents _ _ _ _ _ _ Hpost) in Hag. specialize (Hlog Hag).
    change (logged_text (sanitize_message env0 message)) with (logged_text message)
      in Hraise.
    rewrite Hraise in Hlog. discriminate.
Qed.

(** X27. A message handed to [process_message] without an identifier in
    its metadata, or without metadata, is appended to the message log
    (line 96) and then the call raises [KeyError], or [TypeError], at
    line 97: nothing is made pending, no task is created and no event is
    logged. *)
Theorem process_message_without_id (env : Env) (message : Message) (s : Manager) :
  (∀ mid, ¬ has_message_id message mid) →
  ∃ e : exn,
    process_message env message s
      = (Raised e, with_messages (fun l => l ++ [message]) s)
    ∧ match metadata message with
      | Some _ => exn_class e = KeyError
      | None => exn_class e = TypeError
      end.
Proof.
  intros Hno.
  assert (Hget : ∃ e, metadata_getitem message "message_id" = Raised e
                      ∧ match metadata message with
                        | Some _ => exn_class e = KeyError
                        | None => exn_class e = TypeError
                        end).
  { unfold metadata_getitem. destruct (metadata message) as [md|] eqn:Hmd; [|eauto].
    destruct (md !! "message_id") as [mid|] eqn:Hmid; [|eauto].
    exfalso. apply (Hno mid). by exists md. }
  destruct Hget as (e & Hget & Hcls). exists e. split; [|exact Hcls].
  unfold process_message, intake.
  unfold bind at 1. unfold bind at 1. unfold modify at 1.
  unfold bind at 1. unfold lift at 1. rewrite Hget. reflexivity.
Qed.

(* ================================================================== *)
(** * These properties at worked inputs *)
(* ================================================================== *)

Lemma hello_in_conversation_has_id : has_message_id hello_in_conversation "m1".
Proof. eexists. split; reflexivity. Defined.

Lemma nothing_stored (tid : string) :
  refs_allocated fresh_manager ∧ task_id_unused tid fresh_manager
  ∧ refs_allocated manager_with_echo ∧ task_id_unused tid manager_with_echo.
Proof. split_and!; intros r Hr; by apply elem_of_nil in Hr. Defined.

Lemma hello_returns :
  process_message (env_with (Returned reply_completed)) hello manager_with_echo
  = (Returned tt, manager_after_hello).
Proof. vm_compute. reflexivity. Qed.

Lemma hello_in_conversation_returns :
  process_message (env_with (Returned reply_completed)) hello_in_conversation
    manager_with_conversation
  = (Returned tt, manager_after_conversation).
Proof. vm_compute. reflexivity. Qed.

Lemma process_message_footprint_witness :
  ∃ (response : Message) (t : Task),
    _messages manager_after_hello = _messages manager_with_echo ++ [hello]
    ∧ _events manager_after_hello
      = _events manager_with_echo
        ++ [host_event (env_with (Returned reply_completed)) hello;
            agent_event (env_with (Returned reply_completed)) response]
    ∧ objects manager_after_hello = objects manager_with_echo ++ [t]
    ∧ task_id t = uuid4 (env_with (Returned reply_completed)) 1
    ∧ history t = Some [hello; response]
    ∧ length (_tasks manager_after_hello) = S (length (_tasks manager_with_echo))
    ∧ _task_map manager_after_hello
      = <["m1" := uuid4 (env_with (Returned reply_completed)) 1]>
          (_task_map manager_with_echo)
    ∧ _agents manager_after_hello = _agents manager_with_echo
    ∧ _llm manager_after_hello = _llm manager_with_echo.
Proof.
  exact (process_message_footprint (env_with (Returned reply_completed)) hello "m1"
           manager_with_echo manager_after_hello hello_has_id hello_returns).
Defined.

Lemma conversation_gets_message_and_response_witness :
  ∃ response : Message,
    history (objects manager_after_conversation !!! 0%nat)
      = Some [hello_in_conversation; response]
    ∧ _conversations manager_after_conversation !! 0%nat
      = Some {| conversation_id := "uuid-0"; is_active := true;
                messages := [hello_in_conversation; response] |}.
Proof.
  destruct (conversation_gets_message_and_response (env_with (Returned reply_completed))
              hello_in_conversation "m1" manager_with_conversation
              manager_after_conversation
              hello_in_conversation_has_id hello_in_conversation_returns)
    as (response & Hhist & Hconv).
  exists response. split; [exact Hhist|].
  assert (Hget : get_conversation (named_conversation hello_in_conversation)
                   manager_with_conversation
                 = Some (0%nat, {| conversation_id := "uuid-0"; is_active := true;
                                   messages := [] |}))
    by (vm_compute; reflexivity).
  rewrite Hget in Hconv. exact (proj1 Hconv).
Defined.

Lemma bound_task_is_found_witness :
  ∃ (tid : string) (response : Message),
    _task_map manager_after_hello !! "m1" = Some tid
    ∧ find_task tid manager_after_hello
      = (Returned (Some (objects manager_after_hello !!! 0%nat)), manager_after_hello)
    ∧ history (objects manager_after_hello !!! 0%nat) = Some [hello; response].
Proof.
  exact (bound_task_is_found (env_with (Returned reply_completed)) hello "m1"
           manager_with_echo manager_after_hello hello_has_id hello_returns).
Defined.

Lemma pending_summary_while_awaiting_witness :
  ∃ (l : Locals) (s1 : Manager),
    intake (env_with (Returned reply_completed)) hello manager_with_echo = (Returned l, s1)
    ∧ _pending_message_ids s1 = ["m1"]
    ∧ get_pending_messages s1 = (Returned [Entry "m1" "Working..."], s1).
Proof.
  exact (pending_summary_while_awaiting (env_with (Returned reply_completed)) hello "m1"
           manager_with_echo hello_has_id eq_refl
           (proj1 (proj2 (proj2 (nothing_stored "uuid-1"))))
           (proj2 (proj2 (proj2 (nothing_stored "uuid-1"))))).
Defined.

Lemma pending_summary_after_log_failure_witness :
  ∃ (e : exn) (s' : Manager),
    process_message (env_with (Returned reply_completed)) chart fresh_manager
      = (Raised e, s')
    ∧ get_pending_messages s' = (Returned [Entry "m1" "Working..."], s').
Proof.
  exact (pending_summary_after_log_failure (env_with (Returned reply_completed)) chart "m1"
           fresh_manager (DataPart [("kind", "chart")]) [] chart_has_id
           eq_refl eq_refl eq_refl eq_refl
           (proj1 (nothing_stored "uuid-1")) (proj1 (proj2 (nothing_stored "uuid-1")))).
Defined.

Lemma one_collaborator_consulted_witness :
  process_message (env_model (Raised (Exn Exception_ "rate limit"))) hello manager_with_echo
  = process_message (env_with (Returned reply_completed)) hello manager_with_echo.
Proof.
  exact (one_collaborator_consulted (env_with (Returned reply_completed))
           (env_model (Raised (Exn Exception_ "rate limit")))
           (fun _ => eq_refl) (fun _ => eq_refl) hello "m1" manager_with_echo
           hello_has_id eq_refl).
Defined.


Lemma returned_card_has_url_witness :
  truthy_opt_str (card_url echo_card) = true
  ∧ register_agent example_http "example.com" fresh_manager
    = (Returned tt, with_agents (fun l => l ++ [echo_card]) fresh_manager).
Proof.
  exact (returned_card_has_url example_http "example.com" echo_card fresh_manager eq_refl).
Defined.

Lemma get_agent_card_failure_class_witness :
  UnboundLocalError = ValueError
  ∨ (UnboundLocalError = UnboundLocalError
     ∧ ∃ e0, requests_get example_http (agent_card_url_of "example.org") 10 = Raised e0
             ∧ isinstance e0 RequestsTimeout = false
             ∧ isinstance e0 RequestException = true).
Proof.
  exact (get_agent_card_failure_class example_http "example.org"
           (Exn UnboundLocalError
              "cannot access local variable 'response' where it is not associated with a value")
           eq_refl).
Defined.


Lemma created_conversation_is_found_witness :
  ∃ (c : Conversation) (s' : Manager),
    create_conversation (env_with (Returned reply_completed)) fresh_manager
      = (Returned c, s')
    ∧ c = {| conversation_id := "uuid-0"; is_active := true; messages := [] |}
    ∧ _conversations s' = _conversations fresh_manager ++ [c]
    ∧ get_conversation (Some "uuid-0") s' = Some (0%nat, c)
    ∧ get_conversation None s' = None
    ∧ get_conversation (Some "") s' = None.
Proof.
  assert (Hid : uuid4 (env_with (Returned reply_completed)) 0 ≠ "") by discriminate.
  exact (created_conversation_is_found (env_with (Returned reply_completed))
           fresh_manager Hid).
Defined.

Lemma update_task_first_match_only_witness :
  ∃ s' : Manager,
    update_task 2%nat manager_with_twins = (Returned tt, s')
    ∧ _tasks s' !! 0%nat = Some 2%nat
    ∧ (∀ j, j ≠ 0%nat → _tasks s' !! j = _tasks manager_with_twins !! j)
    ∧ length (_tasks s') = length (_tasks manager_with_twins)
    ∧ objects s' = objects manager_with_twins.
Proof.
  apply (update_task_first_match_only 2%nat manager_with_twins 0%nat 0%nat);
    [reflexivity|reflexivity|].
  intros j r' Hj. lia.
Defined.

Lemma sanitized_message_is_processed_witness :
  ∃ (s' : Manager) (response : Message),
    process_message (env_with (Returned reply_completed))
      (sanitize_message (env_with (Returned reply_completed)) ask) manager_with_echo
      = (Returned tt, s')
    ∧ _task_map s' !! "uuid-0" = Some "uuid-1"
    ∧ history (objects s' !!! 0%nat)
      = Some [sanitize_message (env_with (Returned reply_completed)) ask; response].
Proof.
  apply (sanitized_message_is_processed (env_with (Returned reply_completed))
           (env_with (Returned reply_completed)) ask manager_with_echo).
  discriminate.
Defined.

Lemma process_message_without_id_witness :
  ∃ e : exn,
    process_message (env_with (Returned reply_completed)) ask manager_with_echo
      = (Raised e, with_messages (fun l => l ++ [ask]) manager_with_echo)
    ∧ exn_class e = TypeError.
Proof.
  apply (process_message_without_id (env_with (Returned reply_completed)) ask
           manager_with_echo).
  intros mid (md & Hmd & _). discriminate Hmd.
Defined.
